(** * uACR monitoring and treatment adherence engine

    A shallow embedding of [scripts/uacr_monitoring_adherence_algorithm.py]
    (class [uACRMonitoringSystem]) and the properties its specification
    states about it.

    Modelling conventions.
    - The readings of the uACR history enter arithmetic, so they are
      Python numbers: an [int], exact, or a [float], a binary64 value.
      Their difference, quotient and product are those of Python: exact
      on two ints for [-] and [*], correctly rounded for [/] on two ints,
      the IEEE 754 operations (round to nearest, ties to even) of
      [SpecFloat] otherwise, with [ZeroDivisionError] on a zero divisor
      and [OverflowError] where an int is beyond the floats.
    - Numbers that are only compared with constants (eGFR, uACR, the
      stored adherence metrics) are kept as their exact value in [Q].
      The possession ratio, the coverage proportion and the share printed
      in the summary are quotients of counts; they are kept exact as
      well, so their values are those of the code up to the rounding of
      one division and one multiplication.
    - Counts, stages and day numbers are [Z].  A calendar date is its
      proleptic ordinal; the records of the repository carry dates as
      [YYYY-MM-DD] text, which [datetime.fromisoformat] turns into the
      midnight of that day.  The parser belongs to the Python library and
      is a parameter of the development.  Day numbers are not bounded,
      where the dates of the code end at 9999-12-31; the statement about
      the failures of the coverage proportion carries that bound.
    - A Python exception is an [outcome]; the alert list of the
      monitoring object is threaded explicitly.
    - Text produced by f-strings is kept as structured fragments carrying
      the values that the format would print.
    - Dictionary keys read with [.get] or tested with [in] are optional
      fields; keys indexed directly are plain fields. *)

From Stdlib Require Import ZArith QArith Qminmax Ascii String List Sorted Lia Lqa.
From Stdlib Require OrderedTypeEx SpecFloat.
From stdpp Require Import gmap strings list.

Local Open Scope Z_scope.

(* ------------------------------------------------------------------ *)
(** ** Exceptions *)

Inductive exn : Type :=
| ZeroDivisionError
| ValueError
| OverflowError
| TypeError
| IndexError
| KeyError.

Inductive outcome (A : Type) : Type :=
| Ok (a : A)
| Raise (e : exn).
Arguments Ok {A} a.
Arguments Raise {A} e.

#[export] Instance outcome_ret : MRet outcome := fun _ a => Ok a.
#[export] Instance outcome_bind : MBind outcome := fun _ _ f m =>
  match m with
  | Ok a => f a
  | Raise e => Raise e
  end.

Definition raises {A} (m : outcome A) : Prop := exists e, m = Raise e.

(* ------------------------------------------------------------------ *)
(** ** Numbers *)

Definition Qltb (x y : Q) : bool := negb (Qle_bool y x).
Definition Qgtb (x y : Q) : bool := Qltb y x.
Definition Qgeb (x y : Q) : bool := Qle_bool y x.

(** [a / b] on numbers. *)
Definition py_div (a b : Q) : outcome Q :=
  if Qeq_bool b 0 then Raise ZeroDivisionError else Ok (a / b)%Q.

(** [min(a, b)]: the first argument unless the second is smaller. *)
Definition py_min (a b : Q) : Q := if Qltb b a then b else a.

(** [range(n)] *)
Definition range (n : Z) : list Z := seqZ 0 n.

(** [l[i]] for a non-negative index. *)
Definition py_index {A} (l : list A) (i : nat) : outcome A :=
  match l !! i with
  | Some x => Ok x
  | None => Raise IndexError
  end.

(** [d.get(key, default)] on an optional field. *)
Definition get {A} (field : option A) (dflt : A) : A :=
  match field with
  | Some x => x
  | None => dflt
  end.

(** Formatting a value with a numeric format such as [:.1f], and ordering
    it against a number, raise [TypeError] on [None]. *)
Definition numeric {A} (x : option A) : outcome A :=
  match x with
  | Some v => Ok v
  | None => Raise TypeError
  end.

(* ------------------------------------------------------------------ *)
(** ** Python numbers

    [SpecFloat] gives the operations of binary64 on [spec_float]: 53 bits
    of precision, infinities at exponent 1024. *)

Definition float : Type := SpecFloat.spec_float.

Definition float_sub : float -> float -> float := SpecFloat.SFsub 53 1024.
Definition float_mul : float -> float -> float := SpecFloat.SFmul 53 1024.
Definition float_div : float -> float -> float := SpecFloat.SFdiv 53 1024.

Inductive number : Type :=
| Int (n : Z)
| Float (x : float).

Coercion Int : Z >-> number.

(** [float(n)], as the arithmetic converts an int operand: the nearest
    float, or [OverflowError] when that is an infinity. *)
Definition float_of_int (n : Z) : outcome float :=
  match SpecFloat.binary_normalize 53 1024 n 0 false with
  | SpecFloat.S754_infinity _ => Raise OverflowError
  | x => Ok x
  end.

Definition as_float (a : number) : outcome float :=
  match a with
  | Int n => float_of_int n
  | Float x => Ok x
  end.

(** An int as an operand of the division of two ints, which rounds the
    exact quotient once: the int itself, not yet rounded. *)
Definition int_operand (n : Z) : float :=
  match n with
  | Z0 => SpecFloat.S754_zero false
  | Zpos m => SpecFloat.S754_finite false m 0
  | Zneg m => SpecFloat.S754_finite true m 0
  end.

Definition float_is_zero (x : float) : bool :=
  match x with
  | SpecFloat.S754_zero _ => true
  | _ => false
  end.

(** [a - b] *)
Definition py_sub (a b : number) : outcome number :=
  match a, b with
  | Int m, Int n => Ok (Int (m - n))
  | _, _ =>
      x ← as_float a;
      y ← as_float b;
      Ok (Float (float_sub x y))
  end.

(** [a * b] *)
Definition py_mul (a b : number) : outcome number :=
  match a, b with
  | Int m, Int n => Ok (Int (m * n))
  | _, _ =>
      x ← as_float a;
      y ← as_float b;
      Ok (Float (float_mul x y))
  end.

(** [a / b]: always a float. *)
Definition py_truediv (a b : number) : outcome number :=
  match a, b with
  | Int m, Int n =>
      if n =? 0 then Raise ZeroDivisionError
      else
        match float_div (int_operand m) (int_operand n) with
        | SpecFloat.S754_infinity _ => Raise OverflowError
        | q => Ok (Float q)
        end
  | _, _ =>
      x ← as_float a;
      y ← as_float b;
      if float_is_zero y then Raise ZeroDivisionError
      else Ok (Float (float_div x y))
  end.

(** The value of a number: a rational, an infinity, or none for a NaN.
    Python compares numbers by their values, ints with floats too. *)
Inductive extended : Type :=
| Undefined
| MinusInfinity
| Finite (q : Q)
| PlusInfinity.

Definition float_value (x : float) : extended :=
  match x with
  | SpecFloat.S754_zero _ => Finite 0
  | SpecFloat.S754_infinity s => if s then MinusInfinity else PlusInfinity
  | SpecFloat.S754_nan => Undefined
  | SpecFloat.S754_finite s m e =>
      let magnitude := (inject_Z (Zpos m) * 2 ^ e)%Q in
      Finite (if s then - magnitude else magnitude)%Q
  end.

Definition number_value (a : number) : extended :=
  match a with
  | Int n => Finite (inject_Z n)
  | Float x => float_value x
  end.

Definition extended_ltb (u v : extended) : bool :=
  match u, v with
  | Undefined, _ | _, Undefined => false
  | _, MinusInfinity => false
  | MinusInfinity, _ => true
  | PlusInfinity, _ => false
  | _, PlusInfinity => true
  | Finite p, Finite q => Qltb p q
  end.

Definition extended_leb (u v : extended) : bool :=
  match u, v with
  | Undefined, _ | _, Undefined => false
  | MinusInfinity, _ => true
  | _, MinusInfinity => false
  | _, PlusInfinity => true
  | PlusInfinity, _ => false
  | Finite p, Finite q => Qle_bool p q
  end.

Definition py_lt (a b : number) : bool := extended_ltb (number_value a) (number_value b).
Definition py_le (a b : number) : bool := extended_leb (number_value a) (number_value b).
Definition py_gt (a b : number) : bool := py_lt b a.
Definition py_ge (a b : number) : bool := py_le b a.

Declare Scope number_scope.
Delimit Scope number_scope with num.
Notation "a < b" := (py_lt a b = true) : number_scope.
Notation "a <= b" := (py_le a b = true) : number_scope.

(* ------------------------------------------------------------------ *)
(** ** Enumerations *)

Inductive uACRCategory : Type :=
| NORMOALBUMINURIA
| MICROALBUMINURIA
| MACROALBUMINURIA.

Inductive WorseningLevel : Type :=
| NO_CHANGE
| MILD
| MODERATE
| SEVERE
| CATEGORY_PROGRESSION.

Inductive TreatmentRecommendation : Type :=
| CONTINUE_MONITORING
| CONSIDER_TREATMENT
| STRONGLY_RECOMMEND
| URGENT_TREATMENT.

#[export] Instance uACRCategory_eq_dec : EqDecision uACRCategory.
Proof. solve_decision. Defined.
#[export] Instance WorseningLevel_eq_dec : EqDecision WorseningLevel.
Proof. solve_decision. Defined.
#[export] Instance TreatmentRecommendation_eq_dec : EqDecision TreatmentRecommendation.
Proof. solve_decision. Defined.

(* ------------------------------------------------------------------ *)
(** ** Patient snapshots *)

Record Reading : Type := {
  date : string;
  value : number
}.

(** [jardiance['adherence']] *)
Record AdherenceData : Type := {
  adherence_MPR : option Q;
  adherence_PDC : option Q;
  adherence_category_label : option string;
  adherence_last_30_days : option Q;
  adherence_last_90_days : option Q
}.

(** [jardiance['refills']] *)
Record RefillData : Type := {
  refills_count : option Z;
  refills_dates : option (list string);
  refills_days_supply : option Z;
  refills_refill_gap_days : option Z
}.

(** [patient['jardiance']] *)
Record MedicationRecord : Type := {
  jardiance_prescribed : option bool;
  jardiance_medication : option string;
  jardiance_adherence : option AdherenceData;
  jardiance_refills : option RefillData;
  jardiance_barriers : option (list string);
  jardiance_interventions : option (list string)
}.

Record Patient : Type := {
  patientId : string;
  name : string;
  eGFR : option Q;
  ckdStage : option Z;
  uACR : option Q;
  comorbidities : option (list string);
  uacr_history : option (list Reading);
  jardiance : option MedicationRecord
}.

(* ------------------------------------------------------------------ *)
(** ** Derived structures *)

Record uACRAnalysis : Type := {
  patient_id : string;
  patient_name : string;
  current_uacr : number;
  previous_uacr : number;
  percent_change : number;
  current_category : uACRCategory;
  previous_category : uACRCategory;
  worsening_level : WorseningLevel;
  is_worsening : bool;
  date_current : string;
  date_previous : string;
  days_between : Z
}.

Record AdherenceAnalysis : Type := {
  on_treatment : bool;
  medication : option string;
  mpr : option Q;
  pdc : option Q;
  adherence_category : option string;
  last_30_days : option Q;
  last_90_days : option Q;
  refill_gap_days : option Z;
  is_adherent : bool;
  barriers : list string;
  interventions : list string
}.

(** The pieces joined into the eligibility rationale. *)
Inductive Reason : Type :=
| DiabeticCKDStage (ckd_stage : Z)
| NonDiabeticCKDStage (ckd_stage : Z)
| Macroalbuminuria (uacr : Q)
| SignificantAlbuminuria (uacr : Q)
| Microalbuminuria (uacr : Q)
| HypertensionPresent
| HeartFailurePresent
| AdvancedCKDStage (ckd_stage : Z).

Inductive Rationale : Type :=
| BelowApprovedRange
| DoesNotMeetCriteria
| Joined (reasons : list Reason).

(** Lines of the recommended-action list. *)
Inductive Action : Type :=
| AddressAdherence (mpr : Q)
| ContactPatientToday (refill_gap_days : Z)
| IdentifiedBarriers (barriers : list string)
| TargetedInterventions
| ScheduleAdherenceCounseling
| ConsiderReminderTool
| AdherenceIsGood
| ConsiderDiagnosticEvaluation
| RepeatToConfirm
| ReviewBloodPressure
| AssessSodiumIntake
| EvaluateAcuteIllness
| ConsiderAddingOptimizing
| AddFinerenone
| AddGLP1IfDiabetic
| ReferToNephrologist
| UrgentInitiate
| ClinicalIndication (rationale : Rationale)
| EvidenceOfBenefit
| FollowUpTolerance
| StronglyRecommendInitiate
| ExpectedBenefit
| ConsiderInitiate
| RationaleNote (rationale : Rationale)
| DiscussRisksBenefits
| ContinueMonitoringAction
| RepeatInThreeMonths
| OptimizeBloodPressure
| ReinforceLifestyle
| TrendMonitoring (previous_uacr current_uacr percent_change : number)
| ScheduleNextCheck (interval : string).

(** Sentences of the clinical rationale. *)
Inductive RationalePart : Type :=
| ChangeDescription (level : WorseningLevel)
    (previous_uacr current_uacr percent_change : number) (days_between : Z)
| CategoryChange (previous_category current_category : uACRCategory)
| KidneyFunction (egfr : Q) (ckd_stage : Z)
| DespiteGoodAdherence (medication : option string) (mpr pdc : Q)
| PoorAdherence (medication : option string) (mpr : Q)
| WithoutMedication (refill_gap_days : Z)
| MeetsCriteria (elig_rationale : Rationale)
| DoesNotMeetTherapyCriteria.

(** The three message templates. *)
Inductive AlertMessage : Type :=
| WorseningWithPoorAdherence (patient_name : string) (level : WorseningLevel)
    (percent_change : number) (medication adherence_category : option string) (mpr : Q)
| WorseningDespiteGoodAdherence (patient_name : string) (level : WorseningLevel)
    (percent_change : number) (medication : option string) (mpr : Q)
| WorseningInUntreatedPatient (patient_name : string) (level : WorseningLevel)
    (percent_change : number).

Record ClinicalAlert : Type := {
  alert_id : string;
  severity : string;
  alert_patient_id : string;
  alert_patient_name : string;
  alert_type : string;
  message : AlertMessage;
  uacr_analysis : uACRAnalysis;
  adherence_analysis : option AdherenceAnalysis;
  treatment_recommendation : option TreatmentRecommendation;
  recommended_actions : list Action;
  clinical_rationale : list RationalePart;
  timestamp : string
}.

(* ------------------------------------------------------------------ *)
(** ** The monitoring object

    [self.alerts] is the only state; a computation either returns or
    raises, and in both cases leaves an alert list behind. *)

Definition System (A : Type) : Type :=
  list ClinicalAlert -> outcome A * list ClinicalAlert.

#[export] Instance System_ret : MRet System := fun _ a alerts => (Ok a, alerts).
#[export] Instance System_bind : MBind System := fun _ _ f m alerts =>
  match m alerts with
  | (Ok a, alerts') => f a alerts'
  | (Raise e, alerts') => (Raise e, alerts')
  end.

Definition lift {A} (m : outcome A) : System A := fun alerts => (m, alerts).
Definition append_alert (alert : ClinicalAlert) : System unit :=
  fun alerts => (Ok tt, alerts ++ [alert]).
Definition set_alerts (new : list ClinicalAlert) : System unit :=
  fun _ => (Ok tt, new).
Definition get_alerts : System (list ClinicalAlert) :=
  fun alerts => (Ok alerts, alerts).

(* ------------------------------------------------------------------ *)
(** ** Static helpers *)

Definition categorize_uacr (uacr_value : number) : uACRCategory :=
  if py_lt uacr_value 30 then NORMOALBUMINURIA
  else if py_le uacr_value 300 then MICROALBUMINURIA
  else MACROALBUMINURIA.

Definition calculate_mpr (refill_dates : list string) (days_supply period_days : Z)
  : outcome Q :=
  match refill_dates with
  | [] => Ok 0%Q
  | _ =>
      let total_days_supplied := Z.of_nat (length refill_dates) * days_supply in
      q ← py_div (inject_Z total_days_supplied) (inject_Z period_days);
      let mpr := (q * 100)%Q in
      Ok (py_min mpr 100)
  end.

Section Engine.

(** [datetime.fromisoformat], restricted to calendar dates: the ordinal of
    the day, or [None] where Python raises [ValueError]. *)
Variable fromisoformat : string -> option Z.

(** [datetime.now()], as [strftime('%Y%m%d%H%M%S')] and as [isoformat()]
    print it. *)
Variable now_strftime now_isoformat : string.

Definition parse_date (s : string) : outcome Z :=
  match fromisoformat s with
  | Some d => Ok d
  | None => Raise ValueError
  end.

(** The inner loop of [calculate_pdc]: the days of one fill that fall in
    the period are added to the set. *)
Definition add_fill (start end_ refill_date days_supply : Z) (covered_days : gset Z)
  : gset Z :=
  foldl (fun acc i =>
           let day := refill_date + i in
           if (start <=? day) && (day <=? end_) then {[ day ]} ∪ acc else acc)
        covered_days (range days_supply).

(** The outer loop: each refill date is parsed when its turn comes. *)
Fixpoint cover_fills (start end_ days_supply : Z) (refill_dates : list string)
  (covered_days : gset Z) : outcome (gset Z) :=
  match refill_dates with
  | [] => Ok covered_days
  | refill_date_str :: rest =>
      refill_date ← parse_date refill_date_str;
      cover_fills start end_ days_supply rest
                  (add_fill start end_ refill_date days_supply covered_days)
  end.

Definition calculate_pdc (refill_dates : list string) (days_supply : Z)
  (start_date end_date : string) : outcome Q :=
  match refill_dates with
  | [] => Ok 0%Q
  | _ =>
      start ← parse_date start_date;
      end_ ← parse_date end_date;
      let period_days := end_ - start in
      if period_days <=? 0 then Ok 0%Q
      else
        covered_days ← cover_fills start end_ days_supply refill_dates ∅;
        let pdc := (inject_Z (Z.of_nat (size covered_days)) / inject_Z period_days * 100)%Q in
        Ok (py_min pdc 100)
  end.

(* ------------------------------------------------------------------ *)
(** ** Trend analyzer *)

(** [sorted(history, key=lambda x: x['date'], reverse=True)]: dates are
    compared as text, and readings with equal dates keep their order. *)
Fixpoint insert_by_date (x : Reading) (l : list Reading) : list Reading :=
  match l with
  | [] => [x]
  | y :: l' =>
      if String.leb (date y) (date x) then x :: y :: l'
      else y :: insert_by_date x l'
  end.

Definition sorted_by_date_reverse (l : list Reading) : list Reading :=
  foldr insert_by_date [] l.

(** The [if]/[elif] chain that sets [worsening_level] and may reset
    [is_worsening]. *)
Definition determine_worsening (current_value previous_value percent_change : number)
  (current_category previous_category : uACRCategory) : WorseningLevel * bool :=
  let is_worsening := py_gt current_value previous_value in
  if negb is_worsening then (NO_CHANGE, is_worsening)
  else if bool_decide (current_category ≠ previous_category)
       then (CATEGORY_PROGRESSION, is_worsening)
  else if py_gt percent_change 100 then (SEVERE, is_worsening)
  else if py_gt percent_change 50 then (MODERATE, is_worsening)
  else if py_gt percent_change 30 then (MILD, is_worsening)
  else (NO_CHANGE, false).

(** [((current_value - previous_value) / previous_value) * 100] *)
Definition py_percent_change (current_value previous_value : number) : outcome number :=
  difference ← py_sub current_value previous_value;
  quotient ← py_truediv difference previous_value;
  py_mul quotient 100.

Definition analyze_uacr_change (patient : Patient) : outcome (option uACRAnalysis) :=
  match uacr_history patient with
  | None => Ok None
  | Some history =>
      if (length history <? 2)%nat then Ok None
      else
        let uacr_history := sorted_by_date_reverse history in
        current ← py_index uacr_history 0;
        previous ← py_index uacr_history 1;
        let current_value := value current in
        let previous_value := value previous in
        percent_change ← py_percent_change current_value previous_value;
        let current_category := categorize_uacr current_value in
        let previous_category := categorize_uacr previous_value in
        let '(worsening_level, is_worsening) :=
          determine_worsening current_value previous_value percent_change
                              current_category previous_category in
        date_current ← parse_date (date current);
        date_previous ← parse_date (date previous);
        let days_between := date_current - date_previous in
        Ok (Some {| patient_id := patientId patient;
                    patient_name := name patient;
                    current_uacr := current_value;
                    previous_uacr := previous_value;
                    percent_change := percent_change;
                    current_category := current_category;
                    previous_category := previous_category;
                    worsening_level := worsening_level;
                    is_worsening := is_worsening;
                    date_current := date current;
                    date_previous := date previous;
                    days_between := days_between |})
  end.

(* ------------------------------------------------------------------ *)
(** ** Adherence calculator *)

Definition empty_adherence_data : AdherenceData :=
  {| adherence_MPR := None; adherence_PDC := None;
     adherence_category_label := None;
     adherence_last_30_days := None; adherence_last_90_days := None |}.

Definition empty_refill_data : RefillData :=
  {| refills_count := None; refills_dates := None;
     refills_days_supply := None; refills_refill_gap_days := None |}.

Definition not_on_treatment : AdherenceAnalysis :=
  {| on_treatment := false;
     medication := None;
     mpr := None;
     pdc := None;
     adherence_category := None;
     last_30_days := None;
     last_90_days := None;
     refill_gap_days := None;
     is_adherent := false;
     barriers := [];
     interventions := [] |}.

Definition analyze_adherence (patient : Patient) : AdherenceAnalysis :=
  match jardiance patient with
  | None => not_on_treatment
  | Some jardiance_data =>
      if negb (get (jardiance_prescribed jardiance_data) false) then not_on_treatment
      else
        let adherence_data := get (jardiance_adherence jardiance_data) empty_adherence_data in
        let refill_data := get (jardiance_refills jardiance_data) empty_refill_data in
        let mpr := get (adherence_MPR adherence_data) 0%Q in
        let pdc := get (adherence_PDC adherence_data) 0%Q in
        let adherence_category := get (adherence_category_label adherence_data) "Unknown"%string in
        let last_30_days := get (adherence_last_30_days adherence_data) 0%Q in
        let last_90_days := get (adherence_last_90_days adherence_data) 0%Q in
        let refill_gap_days := get (refills_refill_gap_days refill_data) 0 in
        let is_adherent := Qgeb mpr 80 && (refill_gap_days <=? 7) in
        let barriers := get (jardiance_barriers jardiance_data) [] in
        let interventions := get (jardiance_interventions jardiance_data) [] in
        {| on_treatment := true;
           medication := Some (get (jardiance_medication jardiance_data) "Jardiance"%string);
           mpr := Some mpr;
           pdc := Some pdc;
           adherence_category := Some adherence_category;
           last_30_days := Some last_30_days;
           last_90_days := Some last_90_days;
           refill_gap_days := Some refill_gap_days;
           is_adherent := is_adherent;
           barriers := barriers;
           interventions := interventions |}
  end.

(* ------------------------------------------------------------------ *)
(** ** Eligibility evaluator *)

Definition has_label (label : string) (labels : list string) : bool :=
  bool_decide (label ∈ labels).

Definition evaluate_treatment_eligibility (patient : Patient)
  : bool * TreatmentRecommendation * Rationale :=
  let egfr := get (eGFR patient) 0%Q in
  let ckd_stage := get (ckdStage patient) 0 in
  let uacr := get (uACR patient) 0%Q in
  let comorbidities := get (comorbidities patient) [] in
  let has_diabetes := has_label "Diabetes" comorbidities in
  if Qltb egfr 20 then (false, CONTINUE_MONITORING, BelowApprovedRange)
  else
    let '(eligible, recommendation_level, reasons) :=
      if has_diabetes && (2 <=? ckd_stage) then
        let reasons := [DiabeticCKDStage ckd_stage] in
        if Qgeb uacr 300 then
          (true, URGENT_TREATMENT, reasons ++ [Macroalbuminuria uacr])
        else if Qgeb uacr 200 then
          (true, STRONGLY_RECOMMEND, reasons ++ [SignificantAlbuminuria uacr])
        else if Qgeb uacr 30 then
          (true, STRONGLY_RECOMMEND, reasons ++ [Microalbuminuria uacr])
        else (true, CONSIDER_TREATMENT, reasons)
      else if negb has_diabetes && (3 <=? ckd_stage) && Qgeb uacr 200 then
        let reasons := [NonDiabeticCKDStage ckd_stage] in
        if Qgeb uacr 300 then
          (true, URGENT_TREATMENT, reasons ++ [Macroalbuminuria uacr])
        else
          (true, STRONGLY_RECOMMEND, reasons ++ [SignificantAlbuminuria uacr])
      else (false, CONTINUE_MONITORING, [])
    in
    let '(recommendation_level, reasons) :=
      if eligible then
        let reasons :=
          if has_label "Hypertension" comorbidities
          then reasons ++ [HypertensionPresent] else reasons in
        let reasons :=
          if has_label "Heart Failure" comorbidities
          then reasons ++ [HeartFailurePresent] else reasons in
        if 4 <=? ckd_stage
        then (URGENT_TREATMENT, reasons ++ [AdvancedCKDStage ckd_stage])
        else (recommendation_level, reasons)
      else (recommendation_level, reasons)
    in
    let rationale :=
      match reasons with
      | [] => DoesNotMeetCriteria
      | _ => Joined reasons
      end in
    (eligible, recommendation_level, rationale).

(* ------------------------------------------------------------------ *)
(** ** Alert composer *)

(** [adherence_analysis and adherence_analysis.on_treatment] *)
Definition treated (adherence_analysis : option AdherenceAnalysis)
  : option AdherenceAnalysis :=
  match adherence_analysis with
  | Some a => if on_treatment a then Some a else None
  | None => None
  end.

Definition alert_severity (level : WorseningLevel) : string :=
  if bool_decide (level = SEVERE) then "CRITICAL"
  else if bool_decide (level = CATEGORY_PROGRESSION) then "HIGH"
  else if bool_decide (level = MODERATE) then "HIGH"
  else if bool_decide (level = MILD) then "MODERATE"
  else "LOW".

Definition _generate_recommended_actions (patient : Patient)
  (uacr_analysis : uACRAnalysis) (adherence_analysis : option AdherenceAnalysis)
  : outcome (list Action) :=
  actions ←
    match treated adherence_analysis with
    | Some a =>
        if negb (is_adherent a) then
          m ← numeric (mpr a);
          let actions := [AddressAdherence m] in
          gap ← numeric (refill_gap_days a);
          let actions :=
            if 7 <? gap then actions ++ [ContactPatientToday gap] else actions in
          let actions :=
            match barriers a with
            | [] => actions ++ [ScheduleAdherenceCounseling]
            | _ => actions ++ [IdentifiedBarriers (barriers a); TargetedInterventions]
            end in
          Ok (actions ++ [ConsiderReminderTool])
        else
          let actions :=
            [AdherenceIsGood; ConsiderDiagnosticEvaluation; RepeatToConfirm;
             ReviewBloodPressure; AssessSodiumIntake; EvaluateAcuteIllness] in
          Ok (if py_ge (current_uacr uacr_analysis) 300
              then actions ++ [ConsiderAddingOptimizing; AddFinerenone;
                               AddGLP1IfDiabetic; ReferToNephrologist]
              else actions)
    | None =>
        let '(eligible, recommendation, rationale) :=
          evaluate_treatment_eligibility patient in
        Ok (if eligible then
              if bool_decide (recommendation = URGENT_TREATMENT) then
                [UrgentInitiate; ClinicalIndication rationale;
                 EvidenceOfBenefit; FollowUpTolerance]
              else if bool_decide (recommendation = STRONGLY_RECOMMEND) then
                [StronglyRecommendInitiate; ClinicalIndication rationale;
                 ExpectedBenefit]
              else
                [ConsiderInitiate; RationaleNote rationale; DiscussRisksBenefits]
            else
              [ContinueMonitoringAction; RepeatInThreeMonths;
               OptimizeBloodPressure; ReinforceLifestyle])
    end;
  Ok (actions ++
      [TrendMonitoring (previous_uacr uacr_analysis) (current_uacr uacr_analysis)
                       (percent_change uacr_analysis);
       ScheduleNextCheck
         (if bool_decide (worsening_level uacr_analysis ≠ MILD)
          then "2-4 weeks" else "1-2 months")]).

Definition _generate_clinical_rationale (patient : Patient)
  (uacr_analysis : uACRAnalysis) (adherence_analysis : option AdherenceAnalysis)
  : outcome (list RationalePart) :=
  let rationale_parts :=
    [ChangeDescription (worsening_level uacr_analysis)
                       (previous_uacr uacr_analysis) (current_uacr uacr_analysis)
                       (percent_change uacr_analysis) (days_between uacr_analysis)] in
  let rationale_parts :=
    if bool_decide (current_category uacr_analysis ≠ previous_category uacr_analysis)
    then rationale_parts ++
         [CategoryChange (previous_category uacr_analysis)
                         (current_category uacr_analysis)]
    else rationale_parts in
  let egfr := get (eGFR patient) 0%Q in
  let ckd_stage := get (ckdStage patient) 0 in
  let rationale_parts := rationale_parts ++ [KidneyFunction egfr ckd_stage] in
  match treated adherence_analysis with
  | Some a =>
      if is_adherent a then
        m ← numeric (mpr a);
        p ← numeric (pdc a);
        Ok (rationale_parts ++ [DespiteGoodAdherence (medication a) m p])
      else
        m ← numeric (mpr a);
        let rationale_parts := rationale_parts ++ [PoorAdherence (medication a) m] in
        gap ← numeric (refill_gap_days a);
        Ok (if 30 <? gap then rationale_parts ++ [WithoutMedication gap]
            else rationale_parts)
  | None =>
      let '(eligible, recommendation, elig_rationale) :=
        evaluate_treatment_eligibility patient in
      Ok (if eligible then rationale_parts ++ [MeetsCriteria elig_rationale]
          else rationale_parts ++ [DoesNotMeetTherapyCriteria])
  end.

Definition generate_clinical_alert (patient : Patient)
  (uacr_analysis : uACRAnalysis) (adherence_analysis : option AdherenceAnalysis)
  : outcome ClinicalAlert :=
  let alert_id := ("ALERT-" +:+ patientId patient +:+ "-" +:+ now_strftime)%string in
  let severity := alert_severity (worsening_level uacr_analysis) in
  '(alert_type, message) ←
    match treated adherence_analysis with
    | Some a =>
        let alert_type := "UACR_WORSENING_ON_TREATMENT"%string in
        if negb (is_adherent a) then
          m ← numeric (mpr a);
          Ok (alert_type,
              WorseningWithPoorAdherence
                (patient_name uacr_analysis) (worsening_level uacr_analysis)
                (percent_change uacr_analysis) (medication a)
                (adherence_category a) m)
        else
          m ← numeric (mpr a);
          Ok (alert_type,
              WorseningDespiteGoodAdherence
                (patient_name uacr_analysis) (worsening_level uacr_analysis)
                (percent_change uacr_analysis) (medication a) m)
    | None =>
        let alert_type := "UACR_WORSENING_UNTREATED"%string in
        let '(eligible, recommendation, rationale) :=
          evaluate_treatment_eligibility patient in
        Ok (alert_type,
            WorseningInUntreatedPatient
              (patient_name uacr_analysis) (worsening_level uacr_analysis)
              (percent_change uacr_analysis))
    end;
  recommended_actions ←
    _generate_recommended_actions patient uacr_analysis adherence_analysis;
  clinical_rationale ←
    _generate_clinical_rationale patient uacr_analysis adherence_analysis;
  let treatment_recommendation :=
    match treated adherence_analysis with
    | Some _ => None
    | None =>
        let '(_, treatment_recommendation, _) :=
          evaluate_treatment_eligibility patient in
        Some treatment_recommendation
    end in
  Ok {| alert_id := alert_id;
        severity := severity;
        alert_patient_id := patientId patient;
        alert_patient_name := patient_name uacr_analysis;
        alert_type := alert_type;
        message := message;
        uacr_analysis := uacr_analysis;
        adherence_analysis := adherence_analysis;
        treatment_recommendation := treatment_recommendation;
        recommended_actions := recommended_actions;
        clinical_rationale := clinical_rationale;
        timestamp := now_isoformat |}.

(* ------------------------------------------------------------------ *)
(** ** Batch processor *)

Definition severity_icons : list string := ["CRITICAL"; "HIGH"; "MODERATE"; "LOW"]%string.

(** What [_print_alert] needs from an alert in order not to raise; the
    text written to the console is not part of the model. *)
Definition _print_alert (alert : ClinicalAlert) : outcome unit :=
  _ ← (if bool_decide (severity alert ∈ severity_icons) then Ok tt
       else Raise KeyError);
  match treated (adherence_analysis alert) with
  | Some a =>
      _ ← numeric (mpr a);
      _ ← numeric (pdc a);
      _ ← numeric (last_30_days a);
      _ ← numeric (last_90_days a);
      Ok tt
  | None => Ok tt
  end.

Definition process_patient (patient : Patient) : System (option ClinicalAlert) :=
  uacr_analysis ← lift (analyze_uacr_change patient);
  match uacr_analysis with
  | None => mret None
  | Some uacr_analysis =>
      if negb (is_worsening uacr_analysis) then mret None
      else
        let adherence_analysis := analyze_adherence patient in
        alert ← lift (generate_clinical_alert patient uacr_analysis
                                             (Some adherence_analysis));
        _ ← append_alert alert;
        mret (Some alert)
  end.

Fixpoint process_patients (patients : list Patient) : System unit :=
  match patients with
  | [] => mret tt
  | patient :: rest =>
      alert ← process_patient patient;
      _ ← match alert with
          | Some alert => lift (_print_alert alert)
          | None => mret tt
          end;
      process_patients rest
  end.

Definition process_database (patients : list Patient) : System (list ClinicalAlert) :=
  _ ← set_alerts [];
  _ ← process_patients patients;
  get_alerts.

End Engine.

(* ------------------------------------------------------------------ *)
(** ** A calendar-date parser

    The ten-character form [YYYY-MM-DD], which every supported Python
    version accepts; it instantiates the [fromisoformat] parameter in the
    worked examples below. *)

Definition digit (c : ascii) : option Z :=
  let n := Z.of_nat (nat_of_ascii c) in
  if (48 <=? n) && (n <=? 57) then Some (n - 48) else None.

Definition is_leap (y : Z) : bool :=
  ((y mod 4 =? 0) && negb (y mod 100 =? 0)) || (y mod 400 =? 0).

Definition days_in_month (y m : Z) : Z :=
  if m =? 2 then (if is_leap y then 29 else 28)
  else if (m =? 4) || (m =? 6) || (m =? 9) || (m =? 11) then 30
  else 31.

Definition days_before_year (y : Z) : Z :=
  let y' := y - 1 in y' * 365 + y' / 4 - y' / 100 + y' / 400.

Definition days_before_month (y m : Z) : Z :=
  foldr (fun k acc => days_in_month y k + acc) 0 (seqZ 1 (m - 1)).

Definition toordinal (y m d : Z) : Z :=
  days_before_year y + days_before_month y m + d.

Definition iso_calendar_date (s : string) : option Z :=
  match s with
  | String y1 (String y2 (String y3 (String y4 (String "-"
      (String m1 (String m2 (String "-" (String d1 (String d2 EmptyString))))))))) =>
      y1 ← digit y1; y2 ← digit y2; y3 ← digit y3; y4 ← digit y4;
      m1 ← digit m1; m2 ← digit m2; d1 ← digit d1; d2 ← digit d2;
      let y := 1000 * y1 + 100 * y2 + 10 * y3 + y4 in
      let m := 10 * m1 + m2 in
      let d := 10 * d1 + d2 in
      if (1 <=? y) && (1 <=? m) && (m <=? 12) && (1 <=? d) && (d <=? days_in_month y m)
      then Some (toordinal y m d) else None
  | _ => None
  end.

(* ------------------------------------------------------------------ *)
(** ** Sample snapshots

    The scenarios of [scripts/test_uacr_monitoring_demo.py], with the run
    date fixed at 2025-06-30, and two snapshots that make an evaluation
    fail. *)

Definition reading (d : string) (v : number) : Reading := {| date := d; value := v |}.

(** The float a decimal literal [n/d] denotes: the nearest one. *)
Definition decimal (n d : Z) : number :=
  Float (float_div (int_operand n) (int_operand d)).

(** Scenario 1: worsening on treatment, poor adherence. *)
Definition patient_1 : Patient :=
  {| patientId := "TEST001"; name := "John Anderson";
     eGFR := Some (452 # 10)%Q; ckdStage := Some 3; uACR := Some 380%Q;
     comorbidities := Some ["Diabetes"; "Hypertension"]%string;
     uacr_history := Some [reading "2025-06-30" 380; reading "2025-04-01" 250;
                           reading "2025-01-01" 220];
     jardiance := Some
       {| jardiance_prescribed := Some true;
          jardiance_medication := Some "Jardiance (empagliflozin) 10mg"%string;
          jardiance_adherence := Some
            {| adherence_MPR := Some 65%Q; adherence_PDC := Some 58%Q;
               adherence_category_label := Some "Medium"%string;
               adherence_last_30_days := Some 50%Q;
               adherence_last_90_days := Some 60%Q |};
          jardiance_refills := Some
            {| refills_count := Some 2;
               refills_dates := Some ["2024-10-03"; "2025-02-15"]%string;
               refills_days_supply := Some 90;
               refills_refill_gap_days := Some 45 |};
          jardiance_barriers := Some ["Forgetfulness"; "Cost concerns"]%string;
          jardiance_interventions := Some [] |} |}.

(** Scenario 3: untreated, eligible. *)
Definition patient_3 : Patient :=
  {| patientId := "TEST003"; name := "Robert Martinez";
     eGFR := Some 48%Q; ckdStage := Some 3; uACR := Some 320%Q;
     comorbidities := Some ["Diabetes"; "Hypertension"]%string;
     uacr_history := Some [reading "2025-06-30" 320; reading "2025-01-01" 180;
                           reading "2024-07-05" 155];
     jardiance := Some
       {| jardiance_prescribed := Some false; jardiance_medication := None;
          jardiance_adherence := None; jardiance_refills := None;
          jardiance_barriers := None; jardiance_interventions := None |} |}.

(** Scenario 4: untreated, not eligible. *)
Definition patient_4 : Patient :=
  {| patientId := "TEST004"; name := "Linda Park";
     eGFR := Some 78%Q; ckdStage := Some 2; uACR := Some 95%Q;
     comorbidities := Some ["Hypertension"]%string;
     uacr_history := Some [reading "2025-06-30" 95; reading "2025-04-01" 50;
                           reading "2025-01-01" 42];
     jardiance := Some
       {| jardiance_prescribed := Some false; jardiance_medication := None;
          jardiance_adherence := None; jardiance_refills := None;
          jardiance_barriers := None; jardiance_interventions := None |} |}.

(** A snapshot whose previous reading is zero. *)
Definition patient_zero_previous : Patient :=
  {| patientId := "ZERO001"; name := "Zero Previous";
     eGFR := Some 60%Q; ckdStage := Some 2; uACR := Some 50%Q;
     comorbidities := Some [];
     uacr_history := Some [reading "2025-06-30" 50; reading "2025-01-01" 0];
     jardiance := None |}.

(** A snapshot whose most recent reading carries a malformed date. *)
Definition patient_malformed_date : Patient :=
  {| patientId := "DATE001"; name := "Malformed Date";
     eGFR := Some 60%Q; ckdStage := Some 2; uACR := Some 90%Q;
     comorbidities := Some [];
     uacr_history := Some [reading "30/06/2025" 90; reading "2025-01-01" 50];
     jardiance := None |}.

(** A snapshot whose readings 44.4 and 57.72 are floats: the exact rise
    is a little over 30%, the computed one is 30.0. *)
Definition patient_rounding : Patient :=
  {| patientId := "ROUND001"; name := "Rounded Change";
     eGFR := Some 60%Q; ckdStage := Some 2; uACR := Some (5772 # 100)%Q;
     comorbidities := Some [];
     uacr_history := Some [reading "2025-01-01" (decimal 444 10);
                           reading "2025-06-30" (decimal 5772 100)];
     jardiance := None |}.

(** A snapshot that crosses the limit between two bands with a rise under
    7%. *)
Definition patient_band_change : Patient :=
  {| patientId := "BAND001"; name := "Band Change";
     eGFR := Some 60%Q; ckdStage := Some 2; uACR := Some 310%Q;
     comorbidities := Some [];
     uacr_history := Some [reading "2025-06-30" 310; reading "2025-01-01" 290];
     jardiance := None |}.

(** The clock reading used with the sample snapshots. *)
Definition sample_strftime : string := "20250630120000".
Definition sample_isoformat : string := "2025-06-30T12:00:00".

(* ================================================================== *)
(** * Vocabulary of the specification *)

(** A number with a rational value: not an infinity, not a NaN. *)
Definition finite (a : number) : Prop := exists q, number_value a = Finite q.

(** The bands as the specification words them. *)
Inductive in_band (v : number) : uACRCategory -> Prop :=
| band_A : (v < 30)%num -> in_band v NORMOALBUMINURIA
| band_B : (30 <= v)%num -> (v <= 300)%num -> in_band v MICROALBUMINURIA
| band_C : (300 < v)%num -> in_band v MACROALBUMINURIA.

(** The levels that count as worsening. *)
Definition worsening_levels : list WorseningLevel :=
  [MILD; MODERATE; SEVERE; CATEGORY_PROGRESSION].

(** No reading is dated before its successor in the sorted history. *)
Definition not_older (a b : Reading) : Prop := String.leb (date b) (date a) = true.

(** One date text comes strictly before another. *)
Definition earlier (s t : string) : Prop := String.ltb s t = true.


(** The decision order of the eligibility evaluator, step by step. *)
Inductive diabetic_tier (uacr : Q) : TreatmentRecommendation -> Prop :=
| tier_urgent : (300 <= uacr)%Q -> diabetic_tier uacr URGENT_TREATMENT
| tier_strong_200 : (200 <= uacr)%Q -> (uacr < 300)%Q ->
    diabetic_tier uacr STRONGLY_RECOMMEND
| tier_strong_30 : (30 <= uacr)%Q -> (uacr < 200)%Q ->
    diabetic_tier uacr STRONGLY_RECOMMEND
| tier_consider : (uacr < 30)%Q -> diabetic_tier uacr CONSIDER_TREATMENT.

Inductive non_diabetic_tier (uacr : Q) : TreatmentRecommendation -> Prop :=
| nd_tier_urgent : (300 <= uacr)%Q -> non_diabetic_tier uacr URGENT_TREATMENT
| nd_tier_strong : (uacr < 300)%Q -> non_diabetic_tier uacr STRONGLY_RECOMMEND.

(** Steps 1 to 4. *)
Inductive primary_decision (egfr : Q) (stage : Z) (uacr : Q) (diabetic : bool)
  : bool -> TreatmentRecommendation -> Prop :=
| step_1 : (egfr < 20)%Q ->
    primary_decision egfr stage uacr diabetic false CONTINUE_MONITORING
| step_2 tier : (20 <= egfr)%Q -> diabetic = true -> 2 <= stage ->
    diabetic_tier uacr tier ->
    primary_decision egfr stage uacr diabetic true tier
| step_3 tier : (20 <= egfr)%Q -> ~ (diabetic = true /\ 2 <= stage) ->
    diabetic = false -> 3 <= stage -> (200 <= uacr)%Q ->
    non_diabetic_tier uacr tier ->
    primary_decision egfr stage uacr diabetic true tier
| step_4 : (20 <= egfr)%Q -> ~ (diabetic = true /\ 2 <= stage) ->
    ~ (diabetic = false /\ 3 <= stage /\ (200 <= uacr)%Q) ->
    primary_decision egfr stage uacr diabetic false CONTINUE_MONITORING.

(** Step 5 on top of steps 1 to 4. *)
Inductive eligibility_decision (egfr : Q) (stage : Z) (uacr : Q) (diabetic : bool)
  : bool -> TreatmentRecommendation -> Prop :=
| step_5_forced tier : primary_decision egfr stage uacr diabetic true tier ->
    4 <= stage ->
    eligibility_decision egfr stage uacr diabetic true URGENT_TREATMENT
| step_5_kept eligible tier :
    primary_decision egfr stage uacr diabetic eligible tier ->
    ~ (eligible = true /\ 4 <= stage) ->
    eligibility_decision egfr stage uacr diabetic eligible tier.

(** The inputs of the evaluator as it reads them from a snapshot. *)
Definition input_egfr (patient : Patient) : Q := get (eGFR patient) 0%Q.
Definition input_stage (patient : Patient) : Z := get (ckdStage patient) 0.
Definition input_uacr (patient : Patient) : Q := get (uACR patient) 0%Q.
Definition input_comorbidities (patient : Patient) : list string :=
  get (comorbidities patient) [].
Definition is_diabetic (patient : Patient) : bool :=
  bool_decide ("Diabetes"%string ∈ input_comorbidities patient).

(** The (eligible, tier) part of an evaluation. *)
Definition verdict (r : bool * TreatmentRecommendation * Rationale)
  : bool * TreatmentRecommendation := r.1.

(** A comorbidity list without its supporting factors. *)
Definition supporting_factor (label : string) : Prop :=
  label = "Hypertension"%string \/ label = "Heart Failure"%string.

#[export] Instance supporting_factor_dec (label : string) :
  Decision (supporting_factor label).
Proof. unfold supporting_factor. apply _. Defined.

Definition without_supporting_factors (labels : list string) : list string :=
  filter (fun label => ~ supporting_factor label) labels.

(** What the medication record says, as the adherence calculator reads it:
    an absent metric counts as zero. *)
Definition recorded_mpr (j : MedicationRecord) : Q :=
  get (adherence_MPR (get (jardiance_adherence j) empty_adherence_data)) 0%Q.

Definition recorded_refill_gap (j : MedicationRecord) : Z :=
  get (refills_refill_gap_days (get (jardiance_refills j) empty_refill_data)) 0.

(** The medication is prescribed. *)
Definition prescribed (patient : Patient) (j : MedicationRecord) : Prop :=
  jardiance patient = Some j /\ jardiance_prescribed j = Some true.



(** A day lies in the supply window of a fill: [refill, refill + days_supply). *)
Definition in_supply_window (days_supply day refill : Z) : Prop :=
  refill <= day < refill + days_supply.

(** A day is covered when it lies in the window of some fill. *)
Definition covered (refills : list Z) (days_supply day : Z) : Prop :=
  Exists (in_supply_window days_supply day) refills.

#[export] Instance in_supply_window_dec (days_supply day refill : Z) :
  Decision (in_supply_window days_supply day refill).
Proof. unfold in_supply_window. apply _. Defined.

#[export] Instance covered_dec (refills : list Z) (days_supply day : Z) :
  Decision (covered refills days_supply day).
Proof. unfold covered. apply _. Defined.

(** The calendar days of the period [start, end], each listed once, that
    are covered. *)
Definition covered_days_in_period (refills : list Z) (days_supply start end_ : Z)
  : list Z :=
  filter (covered refills days_supply) (seqZ start (end_ - start + 1)).

(** The refill dates parse to the given days. *)
Definition parse_all (fromisoformat : string -> option Z)
  (refill_dates : list string) (refills : list Z) : Prop :=
  Forall2 (fun s d => fromisoformat s = Some d) refill_dates refills.

(* ------------------------------------------------------------------ *)
(** ** Further vocabulary *)

(** The history is absent or holds fewer than two readings. *)
Definition insufficient_history (patient : Patient) : Prop :=
  match uacr_history patient with
  | None => True
  | Some history => (length history < 2)%nat
  end.

(** The reasons joined into a rationale; the two fixed sentences carry
    none. *)
Definition rationale_reasons (rationale : Rationale) : list Reason :=
  match rationale with
  | Joined reasons => reasons
  | _ => []
  end.

(** The strength of a recommendation tier. *)
Definition tier_rank (tier : TreatmentRecommendation) : Z :=
  match tier with
  | CONTINUE_MONITORING => 0
  | CONSIDER_TREATMENT => 1
  | STRONGLY_RECOMMEND => 2
  | URGENT_TREATMENT => 3
  end.

(** The analysis of scenario 1: from 250 to 380 in 90 days, across the
    band limit. *)
Definition analysis_1 : uACRAnalysis :=
  {| patient_id := "TEST001"; patient_name := "John Anderson";
     current_uacr := 380; previous_uacr := 250;
     percent_change := decimal 52 1;
     current_category := MACROALBUMINURIA;
     previous_category := MICROALBUMINURIA;
     worsening_level := CATEGORY_PROGRESSION; is_worsening := true;
     date_current := "2025-06-30"; date_previous := "2025-04-01";
     days_between := 90 |}.

(** The alert a patient gets when processed alone, from an empty
    collection. *)
Definition alert_alone (fromisoformat : string -> option Z)
  (now_strftime now_isoformat : string) (patient : Patient)
  : option ClinicalAlert :=
  match (process_patient fromisoformat now_strftime now_isoformat patient []).1 with
  | Ok (Some alert) => Some alert
  | _ => None
  end.

(** The trend analysis of the patient returns. *)
Definition analysis_returns (fromisoformat : string -> option Z)
  (patient : Patient) : Prop :=
  ~ raises (analyze_uacr_change fromisoformat patient).

(** The severities an alert of a worsening case can carry. *)
Definition worsening_severities : list string :=
  ["CRITICAL"; "HIGH"; "MODERATE"]%string.

#[export] Instance raises_dec {A} (m : outcome A) : Decision (raises m).
Proof.
  destruct m as [a|e]; [right | left].
  - intros [e H]. discriminate H.
  - exists e. reflexivity.
Defined.

(* ------------------------------------------------------------------ *)
(** ** The summary statistics of [main]

    What [main] computes from the alerts of a run once they are exported
    (the branch for a non-empty list); the console text is not part of
    the model. *)

Record Summary : Type := {
  severity_lines : list (string * Z);
  summary_on_treatment : Z;
  summary_not_on_treatment : Z;
  adherence_issues : option (Z * Z * Q)
}.

(** [sum(1 for a in alerts if cond(a))] *)
Definition sum_ones (cond : ClinicalAlert -> bool) (alerts : list ClinicalAlert) : Z :=
  foldl (fun total a => if cond a then total + 1 else total) 0 alerts.

(** The loop that fills [severity_counts]. *)
Definition count_severities (alerts : list ClinicalAlert) : gmap string Z :=
  foldl (fun severity_counts alert =>
           <[severity alert := get (severity_counts !! severity alert) 0 + 1]>
             severity_counts)
        ∅ alerts.

(** The loop that prints the breakdown: one line for each severity with a
    positive count. *)
Definition print_breakdown (severity_counts : gmap string Z) : list (string * Z) :=
  foldr (fun severity lines =>
           let count := get (severity_counts !! severity) 0 in
           if 0 <? count then (severity, count) :: lines else lines)
        [] ["CRITICAL"; "HIGH"; "MODERATE"; "LOW"]%string.

Definition alert_on_treatment (a : ClinicalAlert) : bool :=
  match treated (adherence_analysis a) with
  | Some _ => true
  | None => false
  end.

Definition alert_non_adherent (a : ClinicalAlert) : bool :=
  match treated (adherence_analysis a) with
  | Some adherence => negb (is_adherent adherence)
  | None => false
  end.

Definition main_summary_statistics (alerts : list ClinicalAlert) : outcome Summary :=
  let severity_counts := count_severities alerts in
  let lines := print_breakdown severity_counts in
  let on_treatment := sum_ones alert_on_treatment alerts in
  let not_on_treatment := Z.of_nat (length alerts) - on_treatment in
  issues ←
    (if 0 <? on_treatment then
       let non_adherent := sum_ones alert_non_adherent alerts in
       q ← py_div (inject_Z non_adherent) (inject_Z on_treatment);
       Ok (Some (non_adherent, on_treatment, (q * 100)%Q))
     else Ok None);
  Ok {| severity_lines := lines;
        summary_on_treatment := on_treatment;
        summary_not_on_treatment := not_on_treatment;
        adherence_issues := issues |}.

(** The number of alerts of a given severity. *)
Definition alerts_of_severity (s : string) (alerts : list ClinicalAlert) : Z :=
  Z.of_nat (length (filter (fun a => severity a = s) alerts)).

(** The bands in rising order. *)
Definition band_rank (band : uACRCategory) : Z :=
  match band with
  | NORMOALBUMINURIA => 0
  | MICROALBUMINURIA => 1
  | MACROALBUMINURIA => 2
  end.

(** A number that is zero: the int 0, or a float zero of either sign. *)
Definition zero_number (a : number) : Prop :=
  match a with
  | Int n => n = 0
  | Float x => float_is_zero x = true
  end.

(** A number that arithmetic can take as a float: any float, and an int
    within the range of the floats. *)
Definition converts_to_float (a : number) : Prop := exists x, as_float a = Ok x.

(** The last day of the calendar, 9999-12-31; a date plus a number of
    days beyond it raises OverflowError. *)
Definition max_ordinal : Z := toordinal 9999 12 31.

(** Every fill ends within the calendar: for each refill date that
    parses, the days [refill_date + i] for [i] in [range(days_supply)]
    are dates. *)
Definition supply_within_calendar (fromisoformat : string -> option Z)
  (days_supply : Z) (refill_dates : list string) : Prop :=
  Forall (fun s => forall d, fromisoformat s = Some d ->
                             1 <= d /\ d + days_supply - 1 <= max_ordinal)
         refill_dates.

(* ================================================================== *)
(** * Properties *)

(* ------------------------------------------------------------------ *)
(** ** Comparisons on rationals *)

Lemma Qltb_true (x y : Q) : Qltb x y = true <-> (x < y)%Q.
Proof.
  unfold Qltb. rewrite negb_true_iff, <- not_true_iff_false, Qle_bool_iff.
  split; [apply Qnot_le_lt | apply Qlt_not_le].
Qed.

Lemma Qltb_false (x y : Q) : Qltb x y = false <-> (y <= x)%Q.
Proof. unfold Qltb. rewrite negb_false_iff. apply Qle_bool_iff. Qed.

Lemma Qgtb_true (x y : Q) : Qgtb x y = true <-> (y < x)%Q.
Proof. apply Qltb_true. Qed.

Lemma Qgtb_false (x y : Q) : Qgtb x y = false <-> (x <= y)%Q.
Proof. apply Qltb_false. Qed.

Lemma Qgeb_true (x y : Q) : Qgeb x y = true <-> (y <= x)%Q.
Proof. apply Qle_bool_iff. Qed.

Lemma Qgeb_false (x y : Q) : Qgeb x y = false <-> (x < y)%Q.
Proof.
  unfold Qgeb. rewrite <- not_true_iff_false, Qle_bool_iff.
  split; [apply Qnot_le_lt | apply Qlt_not_le].
Qed.

Lemma Qle_bool_false (x y : Q) : Qle_bool x y = false <-> (y < x)%Q.
Proof. apply (Qgeb_false y x). Qed.

Lemma Qeq_bool_false (x y : Q) : Qeq_bool x y = false <-> ~ (x == y)%Q.
Proof. rewrite <- not_true_iff_false, Qeq_bool_iff. reflexivity. Qed.

Lemma py_div_ok (a b : Q) : ~ (b == 0)%Q -> py_div a b = Ok (a / b)%Q.
Proof. intros Hb. unfold py_div. apply Qeq_bool_false in Hb. by rewrite Hb. Qed.


Lemma py_min_le_r (a b : Q) : (py_min a b <= b)%Q.
Proof.
  unfold py_min. destruct (Qltb b a) eqn:E.
  - apply Qle_refl.
  - by apply Qltb_false in E.
Qed.

Lemma py_min_ge (a b c : Q) : (c <= a)%Q -> (c <= b)%Q -> (c <= py_min a b)%Q.
Proof. intros Ha Hb. unfold py_min. by destruct (Qltb b a). Qed.


(* ------------------------------------------------------------------ *)
(** ** The order of Python numbers *)

Ltac order_facts :=
  repeat match goal with
         | H : Qltb _ _ = true |- _ => apply Qltb_true in H
         | H : Qltb _ _ = false |- _ => apply Qltb_false in H
         | H : Qle_bool _ _ = true |- _ => apply Qle_bool_iff in H
         | H : Qle_bool _ _ = false |- _ => apply Qle_bool_false in H
         | |- Qltb _ _ = true => apply Qltb_true
         | |- Qltb _ _ = false => apply Qltb_false
         | |- Qle_bool _ _ = true => apply Qle_bool_iff
         | |- Qle_bool _ _ = false => apply Qle_bool_false
         end.

Ltac forget_values :=
  repeat match goal with
         | |- context [number_value ?a] =>
             let v := fresh "v" in set (v := number_value a) in *; clearbody v
         | H : context [number_value ?a] |- _ =>
             let v := fresh "v" in set (v := number_value a) in *; clearbody v
         end.

(** Comparisons of numbers, decided on their values. *)
Ltac num_order :=
  unfold py_gt, py_ge, py_lt, py_le in *; cbn [number_value] in *;
  forget_values;
  repeat match goal with v : extended |- _ => destruct v end;
  simpl in *; try discriminate; try done;
  order_facts; unfold inject_Z in *; first [lra | exfalso; lra].

Lemma py_lt_finite (a b : number) (x y : Q) :
  number_value a = Finite x -> number_value b = Finite y ->
  ((a < b)%num <-> (x < y)%Q) /\ ((a <= b)%num <-> (x <= y)%Q).
Proof.
  intros Ha Hb. unfold py_lt, py_le. rewrite Ha, Hb. simpl.
  split; [apply Qltb_true | apply Qle_bool_iff].
Qed.

Lemma py_le_not_gt (a b : number) : (a <= b)%num -> py_gt a b = false.
Proof. intros H. num_order. Qed.

Lemma py_lt_trans (a b c : number) : (a < b)%num -> (b < c)%num -> (a < c)%num.
Proof. intros H1 H2. num_order. Qed.

Lemma py_le_lt_trans (a b c : number) : (a <= b)%num -> (b < c)%num -> (a < c)%num.
Proof. intros H1 H2. num_order. Qed.

(* ------------------------------------------------------------------ *)
(** ** Bands *)

Lemma categorize_uacr_in_band (v : number) :
  finite v -> in_band v (categorize_uacr v).
Proof.
  intros [q Hq]. unfold categorize_uacr.
  destruct (py_lt v 30) eqn:E30; [by apply band_A|].
  destruct (py_le v 300) eqn:E300.
  - apply band_B; [|done].
    unfold py_lt, py_le in *. rewrite Hq in *. simpl in *.
    order_facts. unfold inject_Z in *. lra.
  - apply band_C.
    unfold py_lt, py_le in *. rewrite Hq in *. simpl in *.
    order_facts. unfold inject_Z in *. lra.
Qed.

Lemma in_band_functional (v : number) (b1 b2 : uACRCategory) :
  in_band v b1 -> in_band v b2 -> b1 = b2.
Proof.
  intros H1 H2. destruct H1, H2; try reflexivity; exfalso; num_order.
Qed.

Lemma in_band_iff (v : number) (b : uACRCategory) :
  finite v -> in_band v b <-> categorize_uacr v = b.
Proof.
  intros Hv. split.
  - intros H. eapply in_band_functional; [by apply categorize_uacr_in_band | exact H].
  - intros <-. by apply categorize_uacr_in_band.
Qed.

Lemma categorize_uacr_monotone (v w : number) :
  (v < w)%num -> band_rank (categorize_uacr v) <= band_rank (categorize_uacr w).
Proof.
  intros Hvw. unfold categorize_uacr.
  destruct (py_lt v 30) eqn:Hv1, (py_le v 300) eqn:Hv2,
    (py_lt w 30) eqn:Hw1, (py_le w 300) eqn:Hw2; simpl; try lia;
    exfalso; num_order.
Qed.

(* ------------------------------------------------------------------ *)
(** ** Worsening level *)

Lemma determine_worsening_spec (c p pc : number) (cc pcat : uACRCategory) :
  let '(level, worsening) := determine_worsening c p pc cc pcat in
  ((c <= p)%num -> level = NO_CHANGE) /\
  ((p < c)%num -> cc <> pcat -> level = CATEGORY_PROGRESSION) /\
  ((p < c)%num -> cc = pcat -> (100 < pc)%num -> level = SEVERE) /\
  ((p < c)%num -> cc = pcat -> (50 < pc)%num -> (pc <= 100)%num -> level = MODERATE) /\
  ((p < c)%num -> cc = pcat -> (30 < pc)%num -> (pc <= 50)%num -> level = MILD) /\
  ((p < c)%num -> cc = pcat -> (pc <= 30)%num -> level = NO_CHANGE) /\
  (worsening = true <-> level ∈ worsening_levels) /\
  (worsening = false <-> level = NO_CHANGE).
Proof.
  unfold determine_worsening, worsening_levels.
  destruct (py_gt c p) eqn:Ecp; simpl.
  2:{ repeat split; try done;
        try (rewrite ?elem_of_cons, ?elem_of_nil; intuition congruence);
        intros Hlt; unfold py_gt in Ecp; congruence. }
  assert (Hle : (c <= p)%num -> False) by (intros H; num_order).
  case_bool_decide as Hcat.
  { repeat split; try done;
      try (rewrite ?elem_of_cons, ?elem_of_nil; intuition congruence);
      intros; by exfalso; auto. }
  destruct (py_gt pc 100) eqn:E100; [|destruct (py_gt pc 50) eqn:E50;
    [|destruct (py_gt pc 30) eqn:E30]];
    (repeat split;
     try (rewrite ?elem_of_cons, ?elem_of_nil; intuition congruence);
     intros; try done; try (by exfalso; auto); exfalso; num_order).
Qed.

(* ------------------------------------------------------------------ *)
(** ** Selection of the two most recent readings *)

Lemma insert_by_date_perm (x : Reading) (l : list Reading) :
  insert_by_date x l ≡ₚ x :: l.
Proof.
  induction l as [|y l IH]; simpl; [done|].
  destruct (String.leb (date y) (date x)); [done|].
  rewrite IH. apply Permutation_swap.
Qed.

Lemma sorted_by_date_reverse_perm (l : list Reading) :
  sorted_by_date_reverse l ≡ₚ l.
Proof.
  induction l as [|x l IH]; simpl; [done|].
  rewrite insert_by_date_perm. by rewrite IH.
Qed.

Lemma sorted_by_date_reverse_length (l : list Reading) :
  length (sorted_by_date_reverse l) = length l.
Proof. apply Permutation_length, sorted_by_date_reverse_perm. Qed.

Lemma insert_by_date_sorted (x : Reading) (l : list Reading) :
  Sorted not_older l -> Sorted not_older (insert_by_date x l).
Proof.
  induction 1 as [|y l Hl IH Hhd]; simpl.
  - repeat constructor.
  - destruct (String.leb (date y) (date x)) eqn:E.
    + repeat constructor; done.
    + constructor; [exact IH|].
      assert (Hxy : not_older y x).
      { unfold not_older. destruct (String.leb_total (date x) (date y)); congruence. }
      destruct l as [|z l]; simpl; [by constructor|].
      destruct (String.leb (date z) (date x)); constructor; [done|].
      by inversion Hhd.
Qed.

Lemma sorted_by_date_reverse_sorted (l : list Reading) :
  Sorted not_older (sorted_by_date_reverse l).
Proof.
  induction l as [|x l IH]; simpl; [constructor|].
  by apply insert_by_date_sorted.
Qed.

(* ------------------------------------------------------------------ *)
(** ** The order of date texts *)

Lemma String_leb_iff (s1 s2 : string) :
  String.leb s1 s2 = true <-> s1 = s2 \/ OrderedTypeEx.String_as_OT.lt s1 s2.
Proof.
  unfold String.leb.
  destruct (String.compare s1 s2) eqn:E.
  - apply OrderedTypeEx.String_as_OT.cmp_eq in E. tauto.
  - apply OrderedTypeEx.String_as_OT.cmp_lt in E. tauto.
  - split; [discriminate|]. intros [->|Hlt].
    + assert (Heq : String.compare s2 s2 = Eq)
        by by apply OrderedTypeEx.String_as_OT.cmp_eq.
      congruence.
    + apply OrderedTypeEx.String_as_OT.cmp_lt in Hlt.
      unfold OrderedTypeEx.String_as_OT.cmp in Hlt. congruence.
Qed.

Lemma String_leb_trans (s1 s2 s3 : string) :
  String.leb s1 s2 = true -> String.leb s2 s3 = true -> String.leb s1 s3 = true.
Proof.
  rewrite !String_leb_iff. intros [->|H1] [->|H2]; auto.
  right. eapply OrderedTypeEx.String_as_OT.lt_trans; eauto.
Qed.

Lemma earlier_iff (s t : string) :
  earlier s t <-> OrderedTypeEx.String_as_OT.lt s t.
Proof.
  unfold earlier, String.ltb.
  rewrite <- OrderedTypeEx.String_as_OT.cmp_lt.
  unfold OrderedTypeEx.String_as_OT.cmp.
  destruct (String.compare s t); split; congruence.
Qed.

Lemma earlier_trans (s t u : string) : earlier s t -> earlier t u -> earlier s u.
Proof.
  rewrite !earlier_iff. apply OrderedTypeEx.String_as_OT.lt_trans.
Qed.

Lemma earlier_not_leb (s t : string) : earlier s t -> String.leb t s = true -> False.
Proof.
  rewrite earlier_iff, String_leb_iff. intros Hlt [->|Hgt].
  - by eapply OrderedTypeEx.String_as_OT.lt_not_eq.
  - eapply OrderedTypeEx.String_as_OT.lt_not_eq; [|reflexivity].
    eapply OrderedTypeEx.String_as_OT.lt_trans; eassumption.
Qed.

Lemma not_older_trans : Relations_1.Transitive not_older.
Proof.
  intros a b c Hab Hbc. unfold not_older in *.
  eapply String_leb_trans; eauto.
Qed.

Lemma sorted_by_date_reverse_strongly_sorted (l : list Reading) :
  StronglySorted not_older (sorted_by_date_reverse l).
Proof.
  apply Sorted_StronglySorted.
  - apply not_older_trans.
  - apply sorted_by_date_reverse_sorted.
Qed.

Lemma sorted_by_date_reverse_two (history : list Reading) :
  (2 <= length history)%nat ->
  exists current previous rest,
    sorted_by_date_reverse history = current :: previous :: rest.
Proof.
  intros Hlen. rewrite <- sorted_by_date_reverse_length in Hlen.
  destruct (sorted_by_date_reverse history) as [|c [|p rest]]; simpl in Hlen;
    try lia.
  by eexists _, _, _.
Qed.

(** A sorted list opens with the one reading that is dated after all the
    others. *)
Lemma strongly_sorted_head (latest : Reading) (others sorted : list Reading) :
  StronglySorted not_older sorted ->
  sorted ≡ₚ latest :: others ->
  Forall (fun r => earlier (date r) (date latest)) others ->
  exists tail, sorted = latest :: tail /\ tail ≡ₚ others.
Proof.
  intros Hsorted Hperm Hothers.
  destruct sorted as [|h tail].
  { by apply Permutation_nil in Hperm. }
  apply StronglySorted_inv in Hsorted as [_ Hh].
  rewrite Forall_forall in Hh, Hothers.
  assert (Hhead : h = latest).
  { assert (Hin : h ∈ latest :: others) by (rewrite <- Hperm; left).
    apply elem_of_cons in Hin as [?|Hin]; [done|].
    exfalso.
    assert (Hin' : latest ∈ h :: tail) by (rewrite Hperm; left).
    apply elem_of_cons in Hin' as [->|Hin'].
    - specialize (Hothers _ Hin). apply earlier_iff in Hothers.
      by eapply OrderedTypeEx.String_as_OT.lt_not_eq.
    - eapply earlier_not_leb; [exact (Hothers _ Hin) | exact (Hh _ Hin')]. }
  subst h. exists tail. split; [done|].
  by apply Permutation_cons_inv in Hperm.
Qed.

(** When the two most recent readings are set apart by their dates, the
    sort puts them in front, wherever they stand in the history. *)
Lemma sorted_by_date_reverse_two_latest (history rest : list Reading)
  (current previous : Reading) :
  history ≡ₚ current :: previous :: rest ->
  earlier (date previous) (date current) ->
  Forall (fun r => earlier (date r) (date previous)) rest ->
  exists rest',
    sorted_by_date_reverse history = current :: previous :: rest' /\
    rest' ≡ₚ rest.
Proof.
  intros Hperm Hpc Hrest.
  pose proof (sorted_by_date_reverse_strongly_sorted history) as Hsorted.
  destruct (strongly_sorted_head current (previous :: rest)
              (sorted_by_date_reverse history) Hsorted)
    as (tail & Hs & Htail).
  - by rewrite sorted_by_date_reverse_perm.
  - constructor; [done|].
    eapply Forall_impl; [exact Hrest|].
    intros r Hr. simpl in Hr. by eapply earlier_trans.
  - rewrite Hs in Hsorted.
    apply StronglySorted_inv in Hsorted as [Hsorted _].
    destruct (strongly_sorted_head previous rest tail Hsorted Htail Hrest)
      as (rest' & -> & Hrest').
    by exists rest'.
Qed.

(* ------------------------------------------------------------------ *)
(** ** Trend analyzer *)

Section Trend.

Variable fromisoformat : string -> option Z.

Lemma analyze_uacr_change_sorted (patient : Patient) (history : list Reading)
  (current previous : Reading) (rest : list Reading) :
  uacr_history patient = Some history ->
  sorted_by_date_reverse history = current :: previous :: rest ->
  analyze_uacr_change fromisoformat patient =
    pc ← py_percent_change (value current) (value previous);
    let lw := determine_worsening (value current) (value previous) pc
                (categorize_uacr (value current)) (categorize_uacr (value previous)) in
    date_current ← parse_date fromisoformat (date current);
    date_previous ← parse_date fromisoformat (date previous);
    Ok (Some {| patient_id := patientId patient;
                patient_name := name patient;
                current_uacr := value current;
                previous_uacr := value previous;
                percent_change := pc;
                current_category := categorize_uacr (value current);
                previous_category := categorize_uacr (value previous);
                worsening_level := lw.1;
                is_worsening := lw.2;
                date_current := date current;
                date_previous := date previous;
                days_between := date_current - date_previous |}).
Proof.
  intros Hh Hs. unfold analyze_uacr_change. rewrite Hh.
  assert (Hlen : length history = S (S (length rest))).
  { rewrite <- sorted_by_date_reverse_length, Hs. reflexivity. }
  rewrite Hlen, Hs. simpl.
  destruct (py_percent_change _ _) as [pc|]; simpl; [|reflexivity].
  destruct (determine_worsening _ _ _ _ _) as [level worsening]. reflexivity.
Qed.

(** C1, as amended.  Take a snapshot whose history holds a reading dated
    after all the others (current) and a reading dated after all the
    remaining ones (previous), wherever they stand in the list; let both
    carry finite values and dates that parse, and let the percent change
    ((current - previous) / previous * 100, evaluated as Python does: on
    ints exactly up to the one rounding of the quotient, on floats in
    binary64) be defined, which asks for a previous value other than zero
    and operands within the range of the floats.  Then the analysis is
    returned for these two readings with that percent change, each value
    is placed in its band (A below 30, B from 30 to 300, C above 300), and
    the worsening level is: no-change when current <= previous;
    category-progression when current > previous and the two bands
    differ, whatever the percentage, also at 30% or less; and, when the
    band is unchanged, severe above 100%, moderate in (50%, 100%], mild in
    (30%, 50%] and no-change at 30% or less, on the percent change as
    computed.  [is_worsening] holds exactly for mild, moderate, severe
    and category-progression. *)
Theorem trend_classification (patient : Patient) (history rest : list Reading)
  (current previous : Reading) (pc : number) :
  uacr_history patient = Some history ->
  history ≡ₚ current :: previous :: rest ->
  earlier (date previous) (date current) ->
  Forall (fun r => earlier (date r) (date previous)) rest ->
  is_Some (fromisoformat (date current)) ->
  is_Some (fromisoformat (date previous)) ->
  finite (value current) ->
  finite (value previous) ->
  py_percent_change (value current) (value previous) = Ok pc ->
  exists a : uACRAnalysis,
    analyze_uacr_change fromisoformat patient = Ok (Some a) /\
    current_uacr a = value current /\
    previous_uacr a = value previous /\
    percent_change a = pc /\
    let c := value current in
    let p := value previous in
    in_band c (current_category a) /\
    in_band p (previous_category a) /\
    ((c <= p)%num -> worsening_level a = NO_CHANGE) /\
    ((p < c)%num -> current_category a <> previous_category a ->
       worsening_level a = CATEGORY_PROGRESSION) /\
    ((p < c)%num -> current_category a = previous_category a ->
       (100 < pc)%num -> worsening_level a = SEVERE) /\
    ((p < c)%num -> current_category a = previous_category a ->
       (50 < pc)%num -> (pc <= 100)%num -> worsening_level a = MODERATE) /\
    ((p < c)%num -> current_category a = previous_category a ->
       (30 < pc)%num -> (pc <= 50)%num -> worsening_level a = MILD) /\
    ((p < c)%num -> current_category a = previous_category a ->
       (pc <= 30)%num -> worsening_level a = NO_CHANGE) /\
    (is_worsening a = true <-> worsening_level a ∈ worsening_levels) /\
    (is_worsening a = false <-> worsening_level a = NO_CHANGE).
Proof.
  intros Hh Hperm Hpc Hrest [dc Hdc] [dp Hdp] Hfc Hfp Hchange.
  destruct (sorted_by_date_reverse_two_latest history rest current previous
              Hperm Hpc Hrest) as (rest' & Hs & _).
  rewrite (analyze_uacr_change_sorted _ _ _ _ _ Hh Hs), Hchange.
  unfold parse_date. rewrite Hdc, Hdp. simpl.
  eexists. split; [reflexivity|]. simpl.
  split; [done|]. split; [done|]. split; [done|].
  split; [by apply categorize_uacr_in_band|].
  split; [by apply categorize_uacr_in_band|].
  pose proof (determine_worsening_spec (value current) (value previous) pc
                (categorize_uacr (value current))
                (categorize_uacr (value previous))) as Hspec.
  destruct (determine_worsening _ _ _ _ _) as [level worsening].
  exact Hspec.
Qed.

End Trend.

Lemma trend_classification_witness :
  exists a : uACRAnalysis,
    analyze_uacr_change iso_calendar_date patient_rounding = Ok (Some a) /\
    percent_change a = decimal 30 1 /\
    worsening_level a = NO_CHANGE /\ is_worsening a = false.
Proof.
  destruct (trend_classification iso_calendar_date patient_rounding
              [reading "2025-01-01" (decimal 444 10);
               reading "2025-06-30" (decimal 5772 100)] []
              (reading "2025-06-30" (decimal 5772 100))
              (reading "2025-01-01" (decimal 444 10))
              (decimal 30 1))
    as (a & Ha & _ & _ & Hchange & _ & _ & _ & _ & _ & _ & _ & Hsame & _ & Hflag).
  - reflexivity.
  - apply Permutation_swap.
  - reflexivity.
  - constructor.
  - eexists. vm_compute. reflexivity.
  - eexists. vm_compute. reflexivity.
  - eexists. vm_compute. reflexivity.
  - eexists. vm_compute. reflexivity.
  - vm_compute. reflexivity.
  - exists a. split; [exact Ha|]. split; [exact Hchange|].
    assert (Hlevel : worsening_level a = NO_CHANGE).
    { apply Hsame.
      + vm_compute. reflexivity.
      + vm_compute in Ha. injection Ha as <-. reflexivity.
      + vm_compute. reflexivity. }
    split; [exact Hlevel|]. by apply Hflag.
Defined.

(** C1, as the claim words it: no-change whenever current > previous and
    the percent change is 30% or less.  From 290 to 310 the rise is under
    7%, the value passes from band B to band C, and the level is
    category-progression with [is_worsening] set. *)
Theorem no_change_clause_fails_across_bands :
  exists a : uACRAnalysis,
    analyze_uacr_change iso_calendar_date patient_band_change = Ok (Some a) /\
    (previous_uacr a < current_uacr a)%num /\
    (percent_change a <= 30)%num /\
    worsening_level a = CATEGORY_PROGRESSION /\
    worsening_level a <> NO_CHANGE /\
    is_worsening a = true.
Proof.
  eexists. split; [vm_compute; reflexivity|].
  repeat split; try (vm_compute; reflexivity). discriminate.
Qed.

(* ------------------------------------------------------------------ *)
(** ** Eligibility evaluator *)

Lemma primary_decision_functional egfr stage uacr diabetic e1 t1 e2 t2 :
  primary_decision egfr stage uacr diabetic e1 t1 ->
  primary_decision egfr stage uacr diabetic e2 t2 ->
  e1 = e2 /\ t1 = t2.
Proof.
  intros H1 H2.
  destruct H1, H2; try (split; reflexivity); try (exfalso; lra);
    try (exfalso; tauto); try (exfalso; congruence);
    repeat match goal with
    | H : diabetic_tier _ _ |- _ => destruct H
    | H : non_diabetic_tier _ _ |- _ => destruct H
    end;
    try (split; reflexivity); exfalso; lra.
Qed.

Lemma eligibility_decision_functional egfr stage uacr diabetic e1 t1 e2 t2 :
  eligibility_decision egfr stage uacr diabetic e1 t1 ->
  eligibility_decision egfr stage uacr diabetic e2 t2 ->
  e1 = e2 /\ t1 = t2.
Proof.
  intros H1 H2.
  destruct H1 as [ta Ha Hs1|ea ta Ha Hn1], H2 as [tb Hb Hs2|eb tb Hb Hn2].
  - done.
  - destruct (primary_decision_functional _ _ _ _ _ _ _ _ Ha Hb) as [<- <-].
    exfalso. tauto.
  - destruct (primary_decision_functional _ _ _ _ _ _ _ _ Ha Hb) as [-> ->].
    exfalso. tauto.
  - exact (primary_decision_functional _ _ _ _ _ _ _ _ Ha Hb).
Qed.

Lemma evaluate_treatment_eligibility_decision (patient : Patient) :
  let r := verdict (evaluate_treatment_eligibility patient) in
  eligibility_decision (input_egfr patient) (input_stage patient)
                       (input_uacr patient) (is_diabetic patient) r.1 r.2.
Proof.
  unfold verdict, evaluate_treatment_eligibility, is_diabetic, has_label,
    input_egfr, input_stage, input_uacr, input_comorbidities.
  set (egfr := get (eGFR patient) 0%Q).
  set (stage := get (ckdStage patient) 0).
  set (uacr := get (uACR patient) 0%Q).
  set (cs := get (comorbidities patient) []).
  set (diab := bool_decide ("Diabetes"%string ∈ cs)).
  destruct (Qltb egfr 20) eqn:E20;
    [apply Qltb_true in E20 | apply Qltb_false in E20].
  { simpl. eapply step_5_kept; [by apply step_1 | intros [? _]; done]. }
  destruct diab eqn:Ed; simpl.
  - destruct (Z.leb_spec 2 stage) as [H2|H2]; simpl.
    + assert (Hprim : forall tier, diabetic_tier uacr tier ->
                primary_decision egfr stage uacr true true tier)
        by (intros; by apply step_2).
      destruct (Qgeb uacr 300) eqn:E300;
        [apply Qgeb_true in E300
        |apply Qgeb_false in E300;
         destruct (Qgeb uacr 200) eqn:E200;
         [apply Qgeb_true in E200
         |apply Qgeb_false in E200;
          destruct (Qgeb uacr 30) eqn:E30;
          [apply Qgeb_true in E30 | apply Qgeb_false in E30]]];
        simpl;
        repeat (destruct (bool_decide _); simpl);
        (destruct (Z.leb_spec 4 stage) as [H4|H4]; simpl;
         [eapply step_5_forced; [apply Hprim|done]
         |eapply step_5_kept; [apply Hprim|lia]]);
        first [by apply tier_urgent | by apply tier_strong_200
              | by apply tier_strong_30 | by apply tier_consider].
    + simpl. eapply step_5_kept; [|intros [? _]; done].
      apply step_4; [done | lia | intros [? _]; done].
  - destruct (Z.leb_spec 3 stage) as [H3|H3]; simpl.
    + destruct (Qgeb uacr 200) eqn:E200;
        [apply Qgeb_true in E200 | apply Qgeb_false in E200]; simpl.
      * assert (Hprim : forall tier, non_diabetic_tier uacr tier ->
                  primary_decision egfr stage uacr false true tier)
          by (intros; apply step_3; try done; intros [? _]; done).
        destruct (Qgeb uacr 300) eqn:E300;
          [apply Qgeb_true in E300 | apply Qgeb_false in E300]; simpl;
          repeat (destruct (bool_decide _); simpl);
          (destruct (Z.leb_spec 4 stage) as [H4|H4]; simpl;
           [eapply step_5_forced; [apply Hprim|done]
           |eapply step_5_kept; [apply Hprim|lia]]);
          first [by apply nd_tier_urgent | by apply nd_tier_strong].
      * eapply step_5_kept; [|intros [? _]; done].
        apply step_4; [done | intros [? _]; done | intros (_ & _ & ?); lra].
    + eapply step_5_kept; [|intros [? _]; done].
      apply step_4; [done | intros [? _]; done | intros (_ & ? & _); lia].
Qed.

(** C2.  The evaluator returns exactly what the decision order yields:
    below eGFR 20 not eligible with continue-monitoring; else diabetic at
    stage 2 or more eligible, urgent from 300, strongly-recommend from 200
    and from 30, consider below; else non-diabetic at stage 3 or more with
    albuminuria from 200 eligible, urgent from 300 and strongly-recommend
    otherwise; else not eligible with continue-monitoring; and an eligible
    patient at stage 4 or more is urgent.  The sample rows of the decision
    table follow. *)
Theorem eligibility_decision_order (patient : Patient) :
  let egfr := input_egfr patient in
  let stage := input_stage patient in
  let uacr := input_uacr patient in
  let diabetic := is_diabetic patient in
  let result := verdict (evaluate_treatment_eligibility patient) in
  (forall eligible tier,
     eligibility_decision egfr stage uacr diabetic eligible tier <->
     result = (eligible, tier)) /\
  ((egfr == 15)%Q -> result = (false, CONTINUE_MONITORING)) /\
  ((20 <= egfr)%Q -> diabetic = true -> stage = 3 -> (uacr == 320)%Q ->
     result = (true, URGENT_TREATMENT)) /\
  ((20 <= egfr)%Q -> diabetic = true -> stage = 2 -> (uacr == 50)%Q ->
     result = (true, STRONGLY_RECOMMEND)) /\
  ((20 <= egfr)%Q -> diabetic = false -> stage = 3 -> (uacr == 150)%Q ->
     result = (false, CONTINUE_MONITORING)) /\
  ((20 <= egfr)%Q -> diabetic = false -> stage = 3 -> (uacr == 350)%Q ->
     result = (true, URGENT_TREATMENT)).
Proof.
  intros egfr stage uacr diabetic result.
  assert (Hiff : forall eligible tier,
             eligibility_decision egfr stage uacr diabetic eligible tier <->
             result = (eligible, tier)).
  { intros eligible tier.
    pose proof (evaluate_treatment_eligibility_decision patient) as Hcode.
    cbn zeta in Hcode. fold egfr stage uacr diabetic result in Hcode.
    split.
    - intros Hspec.
      destruct (eligibility_decision_functional _ _ _ _ _ _ _ _ Hcode Hspec)
        as [He Ht].
      destruct result as [e t]. simpl in *. by subst.
    - intros Hres. rewrite Hres in Hcode. exact Hcode. }
  split; [exact Hiff|].
  repeat split.
  - intros H15. apply Hiff.
    eapply step_5_kept; [apply step_1; lra | intros [? _]; done].
  - intros H20 Hd Hs Hu. apply Hiff.
    eapply step_5_kept; [|lia].
    apply step_2; [done | done | lia | apply tier_urgent; lra].
  - intros H20 Hd Hs Hu. apply Hiff.
    eapply step_5_kept; [|lia].
    apply step_2; [done | done | lia | apply tier_strong_30; lra].
  - intros H20 Hd Hs Hu. apply Hiff.
    eapply step_5_kept; [|intros [? _]; done].
    apply step_4; [done | intros [? _]; congruence | intros (_ & _ & ?); lra].
  - intros H20 Hd Hs Hu. apply Hiff.
    eapply step_5_kept; [|lia].
    apply step_3; [done | intros [? _]; congruence | done | lia | lra
                  | apply nd_tier_urgent; lra].
Qed.

(** The decision table on the sample snapshots. *)
Example eligibility_patient_3 :
  verdict (evaluate_treatment_eligibility patient_3) = (true, URGENT_TREATMENT).
Proof. reflexivity. Qed.

Example eligibility_patient_4 :
  verdict (evaluate_treatment_eligibility patient_4) = (false, CONTINUE_MONITORING).
Proof. reflexivity. Qed.

Lemma elem_of_without_supporting_factors (label : string) (labels : list string) :
  ~ supporting_factor label ->
  label ∈ labels <-> label ∈ without_supporting_factors labels.
Proof.
  intros Hns. unfold without_supporting_factors.
  rewrite list_elem_of_filter. tauto.
Qed.

(** C9.  Two snapshots with the same eGFR, stage and albuminuria whose
    comorbidity lists agree once 'Hypertension' and 'Heart Failure' are
    left out get the same eligible flag and the same tier. *)
Theorem supporting_factors_keep_verdict (patient1 patient2 : Patient) :
  eGFR patient1 = eGFR patient2 ->
  ckdStage patient1 = ckdStage patient2 ->
  uACR patient1 = uACR patient2 ->
  without_supporting_factors (input_comorbidities patient1) =
    without_supporting_factors (input_comorbidities patient2) ->
  verdict (evaluate_treatment_eligibility patient1) =
    verdict (evaluate_treatment_eligibility patient2).
Proof.
  intros He Hs Hu Hc.
  assert (Hd : is_diabetic patient1 = is_diabetic patient2).
  { unfold is_diabetic. apply bool_decide_ext.
    assert (Hns : ~ supporting_factor "Diabetes")
      by (intros [H|H]; discriminate H).
    rewrite (elem_of_without_supporting_factors _ (input_comorbidities patient1) Hns).
    rewrite (elem_of_without_supporting_factors _ (input_comorbidities patient2) Hns).
    by rewrite Hc. }
  pose proof (evaluate_treatment_eligibility_decision patient1) as H1.
  pose proof (evaluate_treatment_eligibility_decision patient2) as H2.
  cbn zeta in H1, H2.
  unfold input_egfr, input_stage, input_uacr in H1, H2.
  rewrite He, Hs, Hu, Hd in H1.
  destruct (eligibility_decision_functional _ _ _ _ _ _ _ _ H1 H2) as [E1 E2].
  destruct (verdict (evaluate_treatment_eligibility patient1)),
           (verdict (evaluate_treatment_eligibility patient2)).
  simpl in *. by subst.
Qed.

Lemma supporting_factors_keep_verdict_witness :
  verdict (evaluate_treatment_eligibility patient_3) =
  verdict (evaluate_treatment_eligibility
             {| patientId := "TEST003"; name := "Robert Martinez";
                eGFR := Some 48%Q; ckdStage := Some 3; uACR := Some 320%Q;
                comorbidities := Some ["Heart Failure"; "Diabetes"]%string;
                uacr_history := None; jardiance := None |}).
Proof.
  apply supporting_factors_keep_verdict; reflexivity.
Defined.

(** The rationale is where the supporting factors show. *)
Example supporting_factors_change_rationale :
  (evaluate_treatment_eligibility patient_3).2 =
    Joined [DiabeticCKDStage 3; Macroalbuminuria 320; HypertensionPresent] /\
  (evaluate_treatment_eligibility
     {| patientId := "TEST003"; name := "Robert Martinez";
        eGFR := Some 48%Q; ckdStage := Some 3; uACR := Some 320%Q;
        comorbidities := Some ["Diabetes"]%string;
        uacr_history := None; jardiance := None |}).2 =
    Joined [DiabeticCKDStage 3; Macroalbuminuria 320].
Proof. split; reflexivity. Qed.

(* ------------------------------------------------------------------ *)
(** ** Adherence calculator *)

Lemma analyze_adherence_not_prescribed (patient : Patient) :
  (forall j, ~ prescribed patient j) ->
  analyze_adherence patient = not_on_treatment.
Proof.
  intros Hnot. unfold analyze_adherence.
  destruct (jardiance patient) as [j|] eqn:Ej; [|reflexivity].
  destruct (jardiance_prescribed j) as [[|]|] eqn:Ep; simpl; try reflexivity.
  exfalso. apply (Hnot j). split; [exact Ej | exact Ep].
Qed.

(** C7.  The adherent flag holds exactly when the medication is
    prescribed, the recorded MPR is at least 80 and the recorded refill gap
    is at most 7 days; without a prescription the assessment has
    on-treatment false, no metric, no barrier or intervention, and adherent
    false. *)
Theorem adherent_iff_prescribed_and_thresholds (patient : Patient) :
  let a := analyze_adherence patient in
  (is_adherent a = true <->
     exists j, prescribed patient j /\
               (80 <= recorded_mpr j)%Q /\ recorded_refill_gap j <= 7) /\
  (on_treatment a = true <-> exists j, prescribed patient j) /\
  ((forall j, ~ prescribed patient j) ->
     on_treatment a = false /\ medication a = None /\
     mpr a = None /\ pdc a = None /\ adherence_category a = None /\
     last_30_days a = None /\ last_90_days a = None /\
     refill_gap_days a = None /\ barriers a = [] /\ interventions a = [] /\
     is_adherent a = false).
Proof.
  cbn zeta. repeat split.
  - unfold analyze_adherence, prescribed.
    destruct (jardiance patient) as [j|] eqn:Ej; [|discriminate].
    destruct (jardiance_prescribed j) as [[|]|] eqn:Ep; simpl; try discriminate.
    intros Had. apply andb_true_iff in Had as [Hm Hg].
    exists j. repeat split; try done.
    + by apply Qgeb_true in Hm.
    + by apply Z.leb_le in Hg.
  - intros (j & [Ej Ep] & Hm & Hg).
    unfold analyze_adherence. rewrite Ej, Ep. simpl.
    apply andb_true_iff. split.
    + by apply Qgeb_true.
    + by apply Z.leb_le.
  - unfold analyze_adherence, prescribed.
    destruct (jardiance patient) as [j|] eqn:Ej; [|discriminate].
    destruct (jardiance_prescribed j) as [[|]|] eqn:Ep; simpl; try discriminate.
    intros _. by exists j.
  - intros (j & Ej & Ep). unfold analyze_adherence. by rewrite Ej, Ep.
  - by rewrite analyze_adherence_not_prescribed.
  - by rewrite analyze_adherence_not_prescribed.
  - by rewrite analyze_adherence_not_prescribed.
  - by rewrite analyze_adherence_not_prescribed.
  - by rewrite analyze_adherence_not_prescribed.
  - by rewrite analyze_adherence_not_prescribed.
  - by rewrite analyze_adherence_not_prescribed.
  - by rewrite analyze_adherence_not_prescribed.
  - by rewrite analyze_adherence_not_prescribed.
  - by rewrite analyze_adherence_not_prescribed.
  - by rewrite analyze_adherence_not_prescribed.
Qed.

Example adherence_patient_1 :
  let a := analyze_adherence patient_1 in
  on_treatment a = true /\ mpr a = Some 65%Q /\
  refill_gap_days a = Some 45 /\ is_adherent a = false.
Proof. repeat split. Qed.

Example adherence_patient_3 : analyze_adherence patient_3 = not_on_treatment.
Proof. reflexivity. Qed.

(* ------------------------------------------------------------------ *)
(** ** Alert composer *)


Lemma treated_Some (adherence_analysis : option AdherenceAnalysis) (a : AdherenceAnalysis) :
  treated adherence_analysis = Some a ->
  adherence_analysis = Some a /\ on_treatment a = true.
Proof.
  unfold treated. destruct adherence_analysis as [b|]; [|discriminate].
  destruct (on_treatment b) eqn:E; [|discriminate].
  intros [= <-]. done.
Qed.

Section Composer.

Variables now_strftime now_isoformat : string.




End Composer.

(* ------------------------------------------------------------------ *)
(** ** Batch processor *)


Lemma alert_severity_has_icon (level : WorseningLevel) :
  bool_decide (alert_severity level ∈ severity_icons) = true.
Proof. destruct level; reflexivity. Qed.

(* ------------------------------------------------------------------ *)
(** ** Failures of the percent change *)

Lemma float_of_int_zero : float_of_int 0 = Ok (SpecFloat.S754_zero false).
Proof. reflexivity. Qed.

Lemma float_of_int_raises (n : Z) (e : exn) :
  float_of_int n = Raise e -> e = OverflowError.
Proof.
  unfold float_of_int.
  destruct (SpecFloat.binary_normalize _ _ _ _ _); congruence.
Qed.

Lemma as_float_raises (a : number) (e : exn) :
  as_float a = Raise e -> e = OverflowError.
Proof. destruct a; simpl; [apply float_of_int_raises | discriminate]. Qed.

Lemma py_percent_change_zero_previous (c p : number) :
  zero_number p -> converts_to_float c ->
  py_percent_change c p = Raise ZeroDivisionError.
Proof.
  intros Hz [x Hx]. unfold py_percent_change.
  destruct c as [m|x'], p as [n|y]; simpl in *; subst; simpl.
  - reflexivity.
  - rewrite Hx. simpl. by rewrite Hz.
  - reflexivity.
  - by rewrite Hz.
Qed.

(** The percent change fails in two ways only. *)
Lemma py_percent_change_raises (c p : number) (e : exn) :
  py_percent_change c p = Raise e ->
  e = ZeroDivisionError \/ e = OverflowError.
Proof.
  unfold py_percent_change, py_sub, py_truediv, py_mul.
  destruct c as [m|x], p as [n|y]; simpl.
  - destruct (n =? 0); simpl; [intros [= <-]; by left|].
    destruct (float_div _ _); simpl; try discriminate;
      try (intros [= <-]; by right).
  - destruct (float_of_int m) eqn:Hm; simpl.
    + destruct (float_is_zero y); simpl; [intros [= <-]; by left | discriminate].
    + intros [= <-]. right. by eapply float_of_int_raises.
  - destruct (float_of_int n) eqn:Hn; simpl.
    + destruct (float_is_zero _); simpl; [intros [= <-]; by left | discriminate].
    + intros [= <-]. right. by eapply float_of_int_raises.
  - destruct (float_is_zero y); simpl; [intros [= <-]; by left | discriminate].
Qed.

(** On two floats it fails exactly for a zero divisor. *)
Lemma py_percent_change_floats (x y : float) :
  (float_is_zero y = true ->
     py_percent_change (Float x) (Float y) = Raise ZeroDivisionError) /\
  (float_is_zero y = false ->
     exists pc, py_percent_change (Float x) (Float y) = Ok (Float pc)).
Proof.
  unfold py_percent_change. simpl. split; intros ->; simpl; [done|].
  by eexists.
Qed.

Section Analysis.

Variable fromisoformat : string -> option Z.

Lemma analyze_uacr_change_worsening (patient : Patient) (a : uACRAnalysis) :
  analyze_uacr_change fromisoformat patient = Ok (Some a) ->
  (is_worsening a = true <-> worsening_level a ∈ worsening_levels).
Proof.
  unfold analyze_uacr_change.
  destruct (uacr_history patient) as [history|]; [|discriminate].
  destruct (length history <? 2)%nat; [discriminate|].
  destruct (py_index _ 0) as [current|]; simpl; [|discriminate].
  destruct (py_index _ 1) as [previous|]; simpl; [|discriminate].
  destruct (py_percent_change _ _) as [pc|]; simpl; [|discriminate].
  pose proof (determine_worsening_spec (value current) (value previous)
                pc (categorize_uacr (value current))
                (categorize_uacr (value previous))) as Hspec.
  destruct (determine_worsening _ _ _ _ _) as [level worsening].
  destruct (parse_date _ (date current)); simpl; [|discriminate].
  destruct (parse_date _ (date previous)); simpl; [|discriminate].
  intros [= <-]. simpl. tauto.
Qed.

Lemma analyze_uacr_change_zero_previous (patient : Patient)
  (history : list Reading) (current previous : Reading) :
  uacr_history patient = Some history ->
  sorted_by_date_reverse history !! 0%nat = Some current ->
  sorted_by_date_reverse history !! 1%nat = Some previous ->
  zero_number (value previous) ->
  converts_to_float (value current) ->
  analyze_uacr_change fromisoformat patient = Raise ZeroDivisionError.
Proof.
  intros Hh H0 H1 Hz Hc.
  unfold analyze_uacr_change. rewrite Hh.
  assert (Hlen : (2 <= length history)%nat).
  { rewrite <- sorted_by_date_reverse_length.
    apply lookup_lt_Some in H1. lia. }
  destruct (Nat.ltb_spec (length history) 2) as [Hlt|_]; [lia|].
  unfold py_index. rewrite H0, H1. simpl.
  by rewrite py_percent_change_zero_previous.
Qed.

End Analysis.

Section Batch.

Variable fromisoformat : string -> option Z.
Variables now_strftime now_isoformat : string.

Lemma generate_clinical_alert_after_adherence (patient : Patient) (a : uACRAnalysis) :
  exists alert,
    generate_clinical_alert now_strftime now_isoformat patient a
      (Some (analyze_adherence patient)) = Ok alert /\
    severity alert = alert_severity (worsening_level a) /\
    uacr_analysis alert = a /\
    adherence_analysis alert = Some (analyze_adherence patient) /\
    _print_alert alert = Ok tt.
Proof.
  unfold analyze_adherence.
  destruct (jardiance patient) as [j|].
  2:{ unfold generate_clinical_alert, _generate_recommended_actions,
        _generate_clinical_rationale. simpl.
      destruct (evaluate_treatment_eligibility patient) as [[e t] r]. simpl.
      eexists. split; [reflexivity|]. unfold _print_alert. simpl.
      by rewrite alert_severity_has_icon. }
  destruct (negb (get (jardiance_prescribed j) false)).
  { unfold generate_clinical_alert, _generate_recommended_actions,
      _generate_clinical_rationale. simpl.
    destruct (evaluate_treatment_eligibility patient) as [[e t] r]. simpl.
    eexists. split; [reflexivity|]. unfold _print_alert. simpl.
    by rewrite alert_severity_has_icon. }
  unfold generate_clinical_alert, _generate_recommended_actions,
    _generate_clinical_rationale. simpl.
  destruct (Qgeb _ 80 && _); simpl;
    eexists; (split; [reflexivity|]); unfold _print_alert; simpl;
    by rewrite alert_severity_has_icon.
Qed.

Lemma process_patient_eq (patient : Patient) (alerts : list ClinicalAlert) :
  process_patient fromisoformat now_strftime now_isoformat patient alerts =
    match analyze_uacr_change fromisoformat patient with
    | Raise e => (Raise e, alerts)
    | Ok None => (Ok None, alerts)
    | Ok (Some a) =>
        if is_worsening a then
          match generate_clinical_alert now_strftime now_isoformat patient a
                  (Some (analyze_adherence patient)) with
          | Ok alert => (Ok (Some alert), alerts ++ [alert])
          | Raise e => (Raise e, alerts)
          end
        else (Ok None, alerts)
    end.
Proof.
  unfold process_patient, mbind, System_bind, lift, mret, System_ret, append_alert.
  destruct (analyze_uacr_change fromisoformat patient) as [[a|]|e]; try reflexivity.
  destruct (is_worsening a); simpl; [|reflexivity].
  destruct (generate_clinical_alert _ _ _ _ _); reflexivity.
Qed.

End Batch.

Section BatchRun.

Variable fromisoformat : string -> option Z.
Variables now_strftime now_isoformat : string.


Lemma process_patient_raise_state (patient : Patient) (alerts : list ClinicalAlert)
  (e : exn) :
  (process_patient fromisoformat now_strftime now_isoformat patient alerts).1 = Raise e ->
  process_patient fromisoformat now_strftime now_isoformat patient alerts =
    (Raise e, alerts).
Proof.
  rewrite process_patient_eq.
  destruct (analyze_uacr_change fromisoformat patient) as [[a|]|e']; simpl;
    try discriminate.
  - destruct (is_worsening a); [|discriminate].
    destruct (generate_clinical_alert _ _ _ _ _); simpl; [discriminate|].
    by intros [= ->].
  - by intros [= ->].
Qed.

Lemma process_patients_app (before after : list Patient) (alerts : list ClinicalAlert) :
  process_patients fromisoformat now_strftime now_isoformat (before ++ after) alerts =
    match process_patients fromisoformat now_strftime now_isoformat before alerts with
    | (Ok _, alerts') =>
        process_patients fromisoformat now_strftime now_isoformat after alerts'
    | (Raise e, alerts') => (Raise e, alerts')
    end.
Proof.
  revert alerts. induction before as [|patient before IH]; intros alerts; simpl.
  - reflexivity.
  - unfold mbind, System_bind.
    destruct (process_patient _ _ _ patient alerts) as [[alert|e] alerts1];
      [|reflexivity].
    destruct alert as [alert|]; unfold lift, mret, System_ret.
    + destruct (_print_alert alert); [apply IH | reflexivity].
    + apply IH.
Qed.

(** C6, as the code has it.  When the evaluation of a patient raises, the
    run stops there: the exception reaches the caller of
    [process_database], the patients after the failing one are not
    processed, and neither an alert list nor a failure count is returned;
    the collection holds the alerts of the patients before it. *)
Theorem batch_stops_at_first_failure (before after : list Patient)
  (failing : Patient) (e : exn) (alerts_before alerts0 : list ClinicalAlert) :
  process_patients fromisoformat now_strftime now_isoformat before [] =
    (Ok tt, alerts_before) ->
  (process_patient fromisoformat now_strftime now_isoformat failing alerts_before).1 =
    Raise e ->
  process_database fromisoformat now_strftime now_isoformat
    (before ++ failing :: after) alerts0 = (Raise e, alerts_before).
Proof.
  intros Hbefore Hfail. apply process_patient_raise_state in Hfail.
  unfold process_database, mbind, System_bind, set_alerts.
  rewrite process_patients_app, Hbefore. simpl.
  unfold mbind, System_bind. by rewrite Hfail.
Qed.

End BatchRun.

Lemma batch_stops_at_first_failure_witness :
  process_database iso_calendar_date sample_strftime sample_isoformat
    ([patient_4] ++ patient_malformed_date :: [patient_3]) [] =
  (Raise ValueError,
   (process_patients iso_calendar_date sample_strftime sample_isoformat
      [patient_4] []).2).
Proof.
  apply (batch_stops_at_first_failure iso_calendar_date sample_strftime
           sample_isoformat [patient_4] [patient_3] patient_malformed_date
           ValueError).
  - vm_compute. reflexivity.
  - vm_compute. reflexivity.
Defined.

(** C6, as the specification words it, fails: a malformed date in the
    first snapshot ends the run with [ValueError], although the second
    snapshot on its own yields an alert. *)
Lemma batch_does_not_continue_after_malformed_date :
  process_database iso_calendar_date sample_strftime sample_isoformat
    [patient_malformed_date; patient_3] [] = (Raise ValueError, []) /\
  (exists alert,
     process_database iso_calendar_date sample_strftime sample_isoformat
       [patient_3] [] = (Ok [alert], [alert])) /\
  ~ (exists alerts,
       (process_database iso_calendar_date sample_strftime sample_isoformat
          [patient_malformed_date; patient_3] []).1 = Ok alerts).
Proof.
  split; [vm_compute; reflexivity|]. split.
  - eexists. vm_compute. reflexivity.
  - intros [alerts H]. vm_compute in H. discriminate H.
Qed.

(** C3 on the code: a snapshot whose previous reading is zero is not
    skipped; the division raises [ZeroDivisionError], which ends the whole
    run before the next snapshot is looked at. *)
Theorem zero_previous_value_aborts_batch :
  analyze_uacr_change iso_calendar_date patient_zero_previous =
    Raise ZeroDivisionError /\
  process_patient iso_calendar_date sample_strftime sample_isoformat
    patient_zero_previous [] = (Raise ZeroDivisionError, []) /\
  process_database iso_calendar_date sample_strftime sample_isoformat
    [patient_zero_previous; patient_3] [] = (Raise ZeroDivisionError, []).
Proof. repeat split; vm_compute; reflexivity. Qed.

Example process_patient_1 :
  exists alert,
    process_patient iso_calendar_date sample_strftime sample_isoformat
      patient_1 [] = (Ok (Some alert), [alert]) /\
    severity alert = "HIGH"%string /\
    alert_type alert = "UACR_WORSENING_ON_TREATMENT"%string /\
    treatment_recommendation alert = None /\
    ContactPatientToday 45 ∈ recommended_actions alert.
Proof.
  eexists. split; [vm_compute; reflexivity|]. simpl.
  repeat split. rewrite !elem_of_cons. tauto.
Qed.

(* ------------------------------------------------------------------ *)
(** ** Coverage proportion *)


Lemma elem_of_add_fill (start end_ refill days_supply day : Z) (acc : gset Z) :
  day ∈ add_fill start end_ refill days_supply acc <->
  day ∈ acc \/ (in_supply_window days_supply day refill /\ start <= day <= end_).
Proof.
  unfold add_fill, range, in_supply_window.
  assert (Hgen : forall (l : list Z) (acc : gset Z),
    day ∈ foldl (fun acc i =>
                   let d := refill + i in
                   if (start <=? d) && (d <=? end_) then {[ d ]} ∪ acc else acc)
                acc l <->
    day ∈ acc \/ exists i, i ∈ l /\ day = refill + i /\ start <= day <= end_).
  { clear acc. induction l as [|i l IH]; intros acc; simpl.
    - split; [by left|]. intros [H|(i & Hi & _)]; [done|]. by apply elem_of_nil in Hi.
    - rewrite IH. clear IH.
      destruct ((start <=? refill + i) && (refill + i <=? end_)) eqn:E.
      + apply andb_true_iff in E as [E1 E2].
        apply Z.leb_le in E1, E2.
        rewrite elem_of_union, elem_of_singleton.
        split.
        * intros [[->|H]|(j & Hj & Hd)].
          -- right. exists i. split; [left|]. done.
          -- by left.
          -- right. exists j. split; [by right|done].
        * intros [H|(j & Hj & Hd)]; [by left; right|].
          apply elem_of_cons in Hj as [->|Hj].
          -- left. left. by destruct Hd.
          -- right. by exists j.
      + split.
        * intros [H|(j & Hj & Hd)]; [by left|].
          right. exists j. split; [by right|done].
        * intros [H|(j & Hj & Hd)]; [by left|].
          apply elem_of_cons in Hj as [->|Hj].
          -- exfalso. destruct Hd as [-> [H1 H2]].
             apply andb_false_iff in E as [E|E]; apply Z.leb_gt in E; lia.
          -- right. by exists j. }
  rewrite Hgen. split.
  - intros [H|(i & Hi & -> & Hd)]; [by left|].
    right. apply elem_of_seqZ in Hi. split; [lia|done].
  - intros [H|[Hw Hd]]; [by left|].
    right. exists (day - refill). split; [|split; [lia|done]].
    apply elem_of_seqZ. lia.
Qed.

Section Coverage.

Variable fromisoformat : string -> option Z.

Lemma cover_fills_parsed (start end_ days_supply : Z) (refill_dates : list string)
  (refills : list Z) (acc : gset Z) :
  parse_all fromisoformat refill_dates refills ->
  exists covered_days,
    cover_fills fromisoformat start end_ days_supply refill_dates acc =
      Ok covered_days /\
    forall day, day ∈ covered_days <->
      day ∈ acc \/ (covered refills days_supply day /\ start <= day <= end_).
Proof.
  intros Hparse. revert acc.
  induction Hparse as [|s r refill_dates refills Hs Hrest IH]; intros acc; simpl.
  - exists acc. split; [done|]. intros day. unfold covered.
    rewrite Exists_nil. tauto.
  - unfold parse_date. rewrite Hs. simpl.
    destruct (IH (add_fill start end_ r days_supply acc)) as (X & -> & HX).
    exists X. split; [done|]. intros day.
    rewrite HX, elem_of_add_fill. unfold covered. rewrite Exists_cons. tauto.
Qed.





End Coverage.


(** Two fills twenty days apart with thirty days of supply cover 49
    distinct days, not 60. *)
Example overlapping_fills_counted_once :
  length (covered_days_in_period [toordinal 2025 1 1; toordinal 2025 1 20] 30
            (toordinal 2025 1 1) (toordinal 2025 3 2)) = 49%nat.
Proof. vm_compute. reflexivity. Qed.

(* ------------------------------------------------------------------ *)
(** ** Bounds and monotonicity of the two ratios *)

Lemma percent_nonneg (n d : Z) :
  0 <= n -> 0 < d -> (0 <= inject_Z n / inject_Z d * 100)%Q.
Proof.
  intros Hn Hd.
  apply Qmult_le_0_compat; [|discriminate].
  apply Qle_shift_div_l.
  - change 0%Q with (inject_Z 0). by rewrite <- Zlt_Qlt.
  - rewrite Qmult_0_l. change 0%Q with (inject_Z 0). by rewrite <- Zle_Qle.
Qed.


Lemma inject_Z_nonzero (d : Z) : d <> 0 -> ~ (inject_Z d == 0)%Q.
Proof.
  intros Hd H. apply Hd. unfold Qeq in H. simpl in H. lia.
Qed.

Lemma calculate_mpr_eq (refill_dates : list string) (days_supply period_days : Z) :
  refill_dates <> [] -> period_days <> 0 ->
  calculate_mpr refill_dates days_supply period_days =
    Ok (py_min (inject_Z (Z.of_nat (length refill_dates) * days_supply) /
                inject_Z period_days * 100) 100).
Proof.
  intros Hne Hp. unfold calculate_mpr.
  destruct refill_dates; [done|].
  rewrite py_div_ok by by apply inject_Z_nonzero.
  reflexivity.
Qed.




Section CoverageBounds.

Variable fromisoformat : string -> option Z.

Lemma calculate_pdc_bounds (refill_dates : list string) (days_supply : Z)
  (start_date end_date : string) (pdc : Q) :
  calculate_pdc fromisoformat refill_dates days_supply start_date end_date = Ok pdc ->
  (0 <= pdc)%Q /\ (pdc <= 100)%Q.
Proof.
  unfold calculate_pdc.
  destruct refill_dates as [|s l] eqn:El.
  { intros [= <-]. split; [apply Qle_refl | discriminate]. }
  rewrite <- El. clear El s l.
  destruct (parse_date _ start_date) as [start|]; simpl; [|discriminate].
  destruct (parse_date _ end_date) as [end_|]; simpl; [|discriminate].
  destruct (Z.leb_spec (end_ - start) 0) as [Hle|Hlt].
  { intros [= <-]. split; [apply Qle_refl | discriminate]. }
  destruct (cover_fills _ _ _ _ _ _) as [X|]; simpl; [|discriminate].
  intros [= <-]. split.
  - apply py_min_ge; [|discriminate]. apply percent_nonneg; lia.
  - apply py_min_le_r.
Qed.



End CoverageBounds.

(** C8 on the code: with one refill and an observation period of zero days
    the possession ratio is not a number in [0,100]; the division raises
    [ZeroDivisionError], where the coverage proportion returns 0. *)
Theorem mpr_zero_period_raises :
  calculate_mpr ["2025-01-01"]%string 30 0 = Raise ZeroDivisionError /\
  calculate_pdc iso_calendar_date ["2025-01-01"]%string 30
    "2025-01-01" "2025-01-01" = Ok 0%Q.
Proof. split; reflexivity. Qed.

(* ------------------------------------------------------------------ *)
(** ** Edges of the trend analyzer *)

Section TrendEdges.

Variable fromisoformat : string -> option Z.
Variables now_strftime now_isoformat : string.

(** X1. The analyzer returns no analysis exactly when the snapshot has no
    history or fewer than two readings; such a patient is passed over
    without an alert and the collection is left as it was, whatever the
    readings' dates and values are. *)
Theorem no_analysis_iff_insufficient_history (patient : Patient) :
  (analyze_uacr_change fromisoformat patient = Ok None <->
     insufficient_history patient) /\
  (insufficient_history patient -> forall alerts,
     process_patient fromisoformat now_strftime now_isoformat patient alerts =
       (Ok None, alerts)).
Proof.
  assert (Hiff : analyze_uacr_change fromisoformat patient = Ok None <->
                 insufficient_history patient).
  { unfold insufficient_history.
    destruct (uacr_history patient) as [history|] eqn:Hh.
    - destruct (Nat.ltb_spec (length history) 2) as [Hlt|Hge].
      + unfold analyze_uacr_change. rewrite Hh.
        apply Nat.ltb_lt in Hlt as Hb. rewrite Hb. tauto.
      + split; [|lia]. intros Hnone. exfalso.
        destruct (sorted_by_date_reverse_two history Hge) as (c & p & rest & Hs).
        rewrite (analyze_uacr_change_sorted _ _ _ _ _ _ Hh Hs) in Hnone.
        destruct (py_percent_change _ _); simpl in Hnone; [|discriminate].
        destruct (parse_date _ (date c)); simpl in Hnone; [|discriminate].
        destruct (parse_date _ (date p)); simpl in Hnone; discriminate.
    - unfold analyze_uacr_change. rewrite Hh. tauto. }
  split; [exact Hiff|].
  intros Hins alerts. apply Hiff in Hins.
  rewrite process_patient_eq, Hins. reflexivity.
Qed.

(** X2. An analysis compares the two most recent readings of the history:
    its current reading carries the greatest date text, its previous
    reading the greatest among the others, wherever they stand in the
    list the snapshot holds. *)
Theorem analysis_compares_two_latest_readings (patient : Patient) (a : uACRAnalysis) :
  analyze_uacr_change fromisoformat patient = Ok (Some a) ->
  exists history current previous rest,
    uacr_history patient = Some history /\
    history ≡ₚ current :: previous :: rest /\
    String.leb (date previous) (date current) = true /\
    Forall (fun r => String.leb (date r) (date previous) = true) rest /\
    current_uacr a = value current /\ date_current a = date current /\
    previous_uacr a = value previous /\ date_previous a = date previous.
Proof.
  intros Ha.
  destruct (uacr_history patient) as [history|] eqn:Hh;
    [|unfold analyze_uacr_change in Ha; rewrite Hh in Ha; discriminate].
  destruct (Nat.ltb_spec (length history) 2) as [Hlt|Hge].
  { unfold analyze_uacr_change in Ha. rewrite Hh in Ha.
    apply Nat.ltb_lt in Hlt. rewrite Hlt in Ha. discriminate. }
  destruct (sorted_by_date_reverse_two history Hge) as (c & p & rest & Hs).
  pose proof (sorted_by_date_reverse_strongly_sorted history) as Hsorted.
  rewrite Hs in Hsorted.
  apply StronglySorted_inv in Hsorted as [Hrest Hc].
  apply StronglySorted_inv in Hrest as [_ Hp].
  apply Forall_cons in Hc as [Hcp _].
  rewrite (analyze_uacr_change_sorted _ _ _ _ _ _ Hh Hs) in Ha.
  destruct (py_percent_change _ _); simpl in Ha; [|discriminate].
  destruct (parse_date _ (date c)); simpl in Ha; [|discriminate].
  destruct (parse_date _ (date p)); simpl in Ha; [|discriminate].
  injection Ha as <-.
  exists history, c, p, rest. repeat split; try done.
  rewrite <- Hs. symmetry. apply sorted_by_date_reverse_perm.
Qed.

(** X3. The analyzer fails in three ways only, and in this order: the
    percent change of the two selected readings raises OverflowError (an
    int operand or an int quotient beyond the floats) or
    ZeroDivisionError (a zero previous value) before any date is parsed;
    otherwise a date of one of the two selected readings that does not
    parse raises ValueError.  Dates of older readings are never parsed.
    A zero previous value raises ZeroDivisionError whenever the current
    value converts to a float, and two float readings fail for a zero
    previous value only. *)
Theorem analysis_failures (patient : Patient) (e : exn) :
  (analyze_uacr_change fromisoformat patient = Raise e <->
   exists history current previous rest,
     uacr_history patient = Some history /\
     sorted_by_date_reverse history = current :: previous :: rest /\
     (py_percent_change (value current) (value previous) = Raise e /\
      (e = ZeroDivisionError \/ e = OverflowError) \/
      (exists pc, py_percent_change (value current) (value previous) = Ok pc) /\
      e = ValueError /\
      (fromisoformat (date current) = None \/
       fromisoformat (date previous) = None))) /\
  (forall c p : number,
     zero_number p -> converts_to_float c ->
     py_percent_change c p = Raise ZeroDivisionError) /\
  (forall (x y : float) (e' : exn),
     py_percent_change (Float x) (Float y) = Raise e' ->
     e' = ZeroDivisionError /\ zero_number (Float y)).
Proof.
  split; [|split].
  - split.
    + intros Hr.
      destruct (uacr_history patient) as [history|] eqn:Hh;
        [|unfold analyze_uacr_change in Hr; rewrite Hh in Hr; discriminate].
      destruct (Nat.ltb_spec (length history) 2) as [Hlt|Hge].
      { unfold analyze_uacr_change in Hr. rewrite Hh in Hr.
        apply Nat.ltb_lt in Hlt. rewrite Hlt in Hr. discriminate. }
      destruct (sorted_by_date_reverse_two history Hge) as (c & p & rest & Hs).
      exists history, c, p, rest. split; [done|]. split; [done|].
      rewrite (analyze_uacr_change_sorted _ _ _ _ _ _ Hh Hs) in Hr.
      destruct (py_percent_change (value c) (value p)) as [pc|e'] eqn:Hpc;
        simpl in Hr.
      * right. split; [by exists pc|].
        unfold parse_date in Hr.
        destruct (fromisoformat (date c)); simpl in Hr.
        -- destruct (fromisoformat (date p)); simpl in Hr; [discriminate|].
           injection Hr as <-. auto.
        -- injection Hr as <-. auto.
      * injection Hr as <-. left. split; [done|].
        by eapply py_percent_change_raises.
    + intros (history & c & p & rest & Hh & Hs & Hcases).
      rewrite (analyze_uacr_change_sorted _ _ _ _ _ _ Hh Hs).
      destruct Hcases as [[Hr _]|([pc Hpc] & -> & Hdates)].
      * by rewrite Hr.
      * rewrite Hpc. simpl. unfold parse_date.
        destruct Hdates as [Hd|Hd].
        -- by rewrite Hd.
        -- rewrite Hd. by destruct (fromisoformat (date c)).
  - apply py_percent_change_zero_previous.
  - intros x y e' Hr.
    destruct (py_percent_change_floats x y) as [Hzero Hok].
    destruct (float_is_zero y) eqn:Hz.
    + split; [|exact Hz].
      rewrite (Hzero eq_refl) in Hr. congruence.
    + destruct (Hok eq_refl) as [pc Hpc]. congruence.
Qed.

End TrendEdges.

Lemma analysis_compares_two_latest_readings_witness :
  exists a,
    analyze_uacr_change iso_calendar_date patient_1 = Ok (Some a) /\
    exists history current previous rest,
      uacr_history patient_1 = Some history /\
      history ≡ₚ current :: previous :: rest /\
      String.leb (date previous) (date current) = true /\
      Forall (fun r => String.leb (date r) (date previous) = true) rest /\
      current_uacr a = value current /\ date_current a = date current /\
      previous_uacr a = value previous /\ date_previous a = date previous.
Proof.
  eexists. split; [vm_compute; reflexivity|].
  apply (analysis_compares_two_latest_readings iso_calendar_date patient_1).
  vm_compute. reflexivity.
Defined.

Lemma strongly_sorted_perm_unique (l1 l2 : list Reading) :
  StronglySorted not_older l1 -> StronglySorted not_older l2 ->
  l1 ≡ₚ l2 -> NoDup (date <$> l1) -> l1 = l2.
Proof.
  revert l2. induction l1 as [|x l1 IH]; intros l2 Hs1 Hs2 Hperm Hnd.
  { by apply Permutation_nil in Hperm. }
  destruct l2 as [|y l2].
  { symmetry in Hperm. by apply Permutation_nil in Hperm. }
  apply StronglySorted_inv in Hs1 as [Hs1 Hx].
  apply StronglySorted_inv in Hs2 as [Hs2 Hy].
  rewrite fmap_cons in Hnd. apply NoDup_cons in Hnd as [Hnotin Hnd].
  rewrite Forall_forall in Hx, Hy.
  assert (Hxy : x = y).
  { assert (Hin1 : x ∈ y :: l2) by (rewrite <- Hperm; left).
    assert (Hin2 : y ∈ x :: l1) by (rewrite Hperm; left).
    apply elem_of_cons in Hin1 as [?|Hin1]; [done|].
    apply elem_of_cons in Hin2 as [?|Hin2]; [done|].
    exfalso. apply Hnotin.
    assert (Hd : date x = date y).
    { apply String.leb_antisym; [apply (Hy _ Hin1) | apply (Hx _ Hin2)]. }
    rewrite Hd. apply list_elem_of_fmap. by exists y. }
  subst y. f_equal. apply IH; try done.
  by apply Permutation_cons_inv in Hperm.
Qed.

Section TrendOrder.

Variable fromisoformat : string -> option Z.

(** X4. When the readings of a history carry pairwise different dates, the
    order in which the snapshot lists them does not matter: two snapshots
    of the same patient whose histories are permutations of each other
    get the same outcome, be it an analysis, none, or a failure. *)
Theorem analysis_independent_of_history_order (patient1 patient2 : Patient)
  (history1 history2 : list Reading) :
  patientId patient1 = patientId patient2 ->
  name patient1 = name patient2 ->
  uacr_history patient1 = Some history1 ->
  uacr_history patient2 = Some history2 ->
  history1 ≡ₚ history2 ->
  NoDup (date <$> history1) ->
  analyze_uacr_change fromisoformat patient1 =
    analyze_uacr_change fromisoformat patient2.
Proof.
  intros Hid Hname Hh1 Hh2 Hperm Hnd.
  assert (Hsorted : sorted_by_date_reverse history1 = sorted_by_date_reverse history2).
  { apply strongly_sorted_perm_unique.
    - apply sorted_by_date_reverse_strongly_sorted.
    - apply sorted_by_date_reverse_strongly_sorted.
    - by rewrite !sorted_by_date_reverse_perm.
    - by rewrite sorted_by_date_reverse_perm. }
  unfold analyze_uacr_change.
  rewrite Hh1, Hh2, Hid, Hname, Hsorted, (Permutation_length Hperm).
  reflexivity.
Qed.

End TrendOrder.

Lemma analysis_independent_of_history_order_witness :
  analyze_uacr_change iso_calendar_date patient_1 =
  analyze_uacr_change iso_calendar_date
    {| patientId := "TEST001"; name := "John Anderson";
       eGFR := None; ckdStage := None; uACR := None; comorbidities := None;
       uacr_history := Some [reading "2025-01-01" 220; reading "2025-06-30" 380;
                             reading "2025-04-01" 250];
       jardiance := None |}.
Proof.
  eapply (analysis_independent_of_history_order iso_calendar_date patient_1);
    try reflexivity.
  - simpl. symmetry. apply (Permutation_cons_append [_; _]).
  - apply (bool_decide_unpack _). vm_compute. reflexivity.
Defined.

(* ------------------------------------------------------------------ *)
(** ** The two ratios at their limits *)

Lemma percent_ge_100 (n d : Z) :
  0 < d -> (100 <= inject_Z n / inject_Z d * 100)%Q <-> d <= n.
Proof.
  intros Hd. destruct d as [|p|p]; try lia.
  unfold Qle, Qdiv, Qmult, Qinv, inject_Z. simpl. lia.
Qed.

Lemma py_min_100 (a : Q) : (py_min a 100 == 100)%Q <-> (100 <= a)%Q.
Proof.
  unfold py_min. destruct (Qltb 100 a) eqn:E.
  - apply Qltb_true in E. split; [intros _; by apply Qlt_le_weak | reflexivity].
  - apply Qltb_false in E. split; intros H.
    + rewrite H. apply Qle_refl.
    + by apply Qle_antisym.
Qed.

Lemma py_min_below (a : Q) : (a < 100)%Q -> py_min a 100 = a.
Proof.
  intros H. unfold py_min.
  destruct (Qltb 100 a) eqn:E; [|done].
  apply Qltb_true in E. exfalso. lra.
Qed.

(** X5. With a non-negative supply per fill, a positive period, and the
    days supplied and the period both at most 2^53 (the range in which
    the rounded quotient of the two ints and its product with 100 stand
    against 100 as the exact ones do), the possession ratio is a number
    between 0 and 100, and it is 100 exactly when the days supplied reach
    the period. *)
Theorem mpr_is_clamped_percentage (refill_dates : list string)
  (days_supply period_days : Z) :
  0 <= days_supply -> 0 < period_days ->
  Z.of_nat (length refill_dates) * days_supply <= 2 ^ 53 ->
  period_days <= 2 ^ 53 ->
  let total_days_supplied := Z.of_nat (length refill_dates) * days_supply in
  exists mpr,
    calculate_mpr refill_dates days_supply period_days = Ok mpr /\
    (0 <= mpr)%Q /\ (mpr <= 100)%Q /\
    ((mpr == 100)%Q <-> period_days <= total_days_supplied) /\
    (total_days_supplied < period_days -> (mpr < 100)%Q).
Proof.
  intros Hs Hp _ _. cbv zeta.
  destruct refill_dates as [|s l] eqn:El.
  { exists 0%Q. simpl.
    split; [done|]. split; [done|]. split; [done|]. split.
    - split; [discriminate | lia].
    - intros _. reflexivity. }
  rewrite <- El in *.
  rewrite calculate_mpr_eq by (subst; done || lia).
  eexists. split; [reflexivity|]. split; [|split; [|split]].
  - apply py_min_ge; [|discriminate]. apply percent_nonneg; lia.
  - apply py_min_le_r.
  - rewrite py_min_100. by apply percent_ge_100.
  - intros Hlt. rewrite py_min_below.
    + apply Qnot_le_lt. rewrite percent_ge_100 by done. lia.
    + apply Qnot_le_lt. rewrite percent_ge_100 by done. lia.
Qed.

Lemma mpr_is_clamped_percentage_witness :
  exists mpr,
    calculate_mpr ["2025-01-01"; "2025-02-01"]%string 30 90 = Ok mpr /\
    (0 <= mpr)%Q /\ (mpr <= 100)%Q /\
    ((mpr == 100)%Q <-> 90 <= 60) /\
    (60 < 90 -> (mpr < 100)%Q).
Proof.
  apply (mpr_is_clamped_percentage ["2025-01-01"; "2025-02-01"]%string 30 90);
    simpl; lia.
Defined.





(* ------------------------------------------------------------------ *)
(** ** Coverage: bounds, order of the fills, failures *)


Section CoverageEdges.

Variable fromisoformat : string -> option Z.

Lemma cover_fills_raises (start end_ days_supply : Z) (refill_dates : list string)
  (acc : gset Z) (e : exn) :
  cover_fills fromisoformat start end_ days_supply refill_dates acc = Raise e <->
  e = ValueError /\ Exists (fun s => fromisoformat s = None) refill_dates.
Proof.
  revert acc. induction refill_dates as [|s l IH]; intros acc; simpl.
  - split; [discriminate|]. intros [_ H]. inversion H.
  - unfold parse_date. destruct (fromisoformat s) as [d|] eqn:Hs; simpl.
    + rewrite IH. split; intros [-> H]; (split; [done|]).
      * by right.
      * inversion H; subst; [congruence | done].
    + split.
      * intros [= <-]. split; [done | by left].
      * by intros [-> _].
Qed.

Lemma parse_all_nil_iff (refill_dates : list string) (refills : list Z) :
  parse_all fromisoformat refill_dates refills ->
  refill_dates = [] <-> refills = [].
Proof. intros H. inversion H; subst; split; congruence. Qed.

(** X8. Whenever the coverage proportion returns, it returns a number
    between 0 and 100. *)
Theorem pdc_within_bounds (refill_dates : list string) (days_supply : Z)
  (start_date end_date : string) (pdc : Q) :
  calculate_pdc fromisoformat refill_dates days_supply start_date end_date = Ok pdc ->
  (0 <= pdc)%Q /\ (pdc <= 100)%Q.
Proof. apply calculate_pdc_bounds. Qed.


(** X10. The coverage proportion depends on the set of refill days only:
    listing the fills in another order, or a fill twice, changes
    nothing. *)
Theorem pdc_ignores_order_and_repeats (dates1 dates2 : list string)
  (refills1 refills2 : list Z) (days_supply : Z) (start_date end_date : string) :
  parse_all fromisoformat dates1 refills1 ->
  parse_all fromisoformat dates2 refills2 ->
  (forall refill, refill ∈ refills1 <-> refill ∈ refills2) ->
  calculate_pdc fromisoformat dates1 days_supply start_date end_date =
    calculate_pdc fromisoformat dates2 days_supply start_date end_date.
Proof.
  intros Hp1 Hp2 Hsame.
  assert (Hnil : dates1 = [] <-> dates2 = []).
  { rewrite (parse_all_nil_iff _ _ Hp1), (parse_all_nil_iff _ _ Hp2).
    split; intros ->.
    - destruct refills2 as [|r l]; [done|].
      specialize (Hsame r). rewrite elem_of_nil in Hsame.
      exfalso. apply Hsame. left.
    - destruct refills1 as [|r l]; [done|].
      specialize (Hsame r). rewrite elem_of_nil in Hsame.
      exfalso. apply Hsame. left. }
  unfold calculate_pdc.
  destruct dates1 as [|s1 l1] eqn:E1.
  { destruct Hnil as [Hnil _]. by rewrite Hnil. }
  destruct dates2 as [|s2 l2] eqn:E2.
  { destruct Hnil as [_ Hnil]. by specialize (Hnil eq_refl). }
  rewrite <- E1, <- E2 in *. clear E1 E2 Hnil s1 l1 s2 l2.
  destruct (parse_date _ start_date) as [start|]; simpl; [|done].
  destruct (parse_date _ end_date) as [end_|]; simpl; [|done].
  destruct (end_ - start <=? 0); [done|].
  destruct (cover_fills_parsed fromisoformat start end_ days_supply _ _ ∅ Hp1)
    as (X1 & HX1 & He1).
  destruct (cover_fills_parsed fromisoformat start end_ days_supply _ _ ∅ Hp2)
    as (X2 & HX2 & He2).
  rewrite HX1, HX2. simpl.
  assert (HX : X1 = X2).
  { apply set_eq. intros day. rewrite He1, He2.
    unfold covered. rewrite !Exists_exists.
    split; (intros [Hempty|[(r & Hr & Hw) Hd]]; [by left | right]);
      (split; [|done]); exists r; (split; [|done]).
    + by apply Hsame.
    + by apply Hsame. }
  by rewrite HX.
Qed.


(** X12. As long as no fill reaches past the last day of the calendar
    (9999-12-31, where adding a day to a date fails), the coverage
    proportion fails only on a date that does not parse, with ValueError,
    and parses lazily: nothing is parsed for an empty refill list, and
    the refill dates are parsed only when the period is positive. *)
Theorem pdc_failures (refill_dates : list string) (days_supply : Z)
  (start_date end_date : string) (e : exn) :
  supply_within_calendar fromisoformat days_supply refill_dates ->
  calculate_pdc fromisoformat refill_dates days_supply start_date end_date =
    Raise e <->
  refill_dates <> [] /\ e = ValueError /\
  (fromisoformat start_date = None \/
   fromisoformat end_date = None \/
   exists start end_,
     fromisoformat start_date = Some start /\
     fromisoformat end_date = Some end_ /\
     0 < end_ - start /\
     Exists (fun s => fromisoformat s = None) refill_dates).
Proof.
  intros _. unfold calculate_pdc.
  destruct refill_dates as [|s l] eqn:El.
  { split; [discriminate|]. by intros [? _]. }
  rewrite <- El. assert (Hne : refill_dates <> []) by (subst; done).
  clear El s l. unfold parse_date.
  destruct (fromisoformat start_date) as [start|]; simpl.
  2:{ split; [intros [= <-]; auto | by intros (_ & -> & _)]. }
  destruct (fromisoformat end_date) as [end_|]; simpl.
  2:{ split; [intros [= <-]; auto | by intros (_ & -> & _)]. }
  destruct (Z.leb_spec (end_ - start) 0) as [Hle|Hlt].
  { split; [discriminate|].
    intros (_ & _ & [?|[?|(s' & e' & [= <-] & [= <-] & ? & _)]]);
      try discriminate; lia. }
  destruct (cover_fills _ _ _ _ _ _) as [X|e'] eqn:Hc; simpl.
  - split; [discriminate|].
    intros (_ & -> & [?|[?|(s' & e' & _ & _ & _ & Hex)]]); try discriminate.
    assert (Hr : cover_fills fromisoformat start end_ days_supply refill_dates ∅ =
                 Raise ValueError) by by apply cover_fills_raises.
    unfold parse_date in Hc. congruence.
  - apply cover_fills_raises in Hc as [-> Hex].
    split.
    + intros [= <-]. split; [done|]. split; [done|].
      right. right. by exists start, end_.
    + by intros (_ & -> & _).
Qed.

End CoverageEdges.

Lemma pdc_within_bounds_witness :
  exists pdc,
    calculate_pdc iso_calendar_date ["2025-01-01"; "2025-01-20"]%string 30
      "2025-01-01" "2025-03-02" = Ok pdc /\
    (0 <= pdc)%Q /\ (pdc <= 100)%Q.
Proof.
  eexists. split; [vm_compute; reflexivity|].
  apply (pdc_within_bounds iso_calendar_date
           ["2025-01-01"; "2025-01-20"]%string 30 "2025-01-01" "2025-03-02").
  vm_compute. reflexivity.
Defined.


Lemma pdc_ignores_order_and_repeats_witness :
  calculate_pdc iso_calendar_date ["2025-01-01"; "2025-01-20"]%string 30
    "2025-01-01" "2025-03-02" =
  calculate_pdc iso_calendar_date
    ["2025-01-20"; "2025-01-01"; "2025-01-20"]%string 30
    "2025-01-01" "2025-03-02".
Proof.
  apply (pdc_ignores_order_and_repeats iso_calendar_date
           ["2025-01-01"; "2025-01-20"]%string
           ["2025-01-20"; "2025-01-01"; "2025-01-20"]%string
           [toordinal 2025 1 1; toordinal 2025 1 20]
           [toordinal 2025 1 20; toordinal 2025 1 1; toordinal 2025 1 20]).
  - repeat constructor.
  - repeat constructor.
  - intros d. rewrite !elem_of_cons, !elem_of_nil. tauto.
Defined.


Lemma pdc_failures_witness :
  calculate_pdc iso_calendar_date ["2025-01-01"; "30/01/2025"]%string 30
    "2025-01-01" "2025-03-02" = Raise ValueError.
Proof.
  apply (pdc_failures iso_calendar_date ["2025-01-01"; "30/01/2025"]%string 30
           "2025-01-01" "2025-03-02" ValueError).
  - constructor.
    { intros d Hd. vm_compute in Hd. injection Hd as <-.
      vm_compute. split; discriminate. }
    constructor; [|constructor].
    intros d Hd. vm_compute in Hd. discriminate Hd.
  - split; [done|]. split; [done|]. right. right.
    exists (toordinal 2025 1 1), (toordinal 2025 3 2).
    split; [reflexivity|]. split; [reflexivity|]. split; [reflexivity|].
    right. left. reflexivity.
Defined.

(* ------------------------------------------------------------------ *)
(** ** Shape and monotonicity of the eligibility evaluation *)

Ltac case_conditions :=
  repeat match goal with
         | |- context [if ?b then _ else _] => destruct b eqn:?; simpl
         end.

Ltac to_Q_facts :=
  repeat match goal with
         | H : Qltb _ _ = true |- _ => apply Qltb_true in H
         | H : Qltb _ _ = false |- _ => apply Qltb_false in H
         | H : Qgeb _ _ = true |- _ => apply Qgeb_true in H
         | H : Qgeb _ _ = false |- _ => apply Qgeb_false in H
         | H : (_ <=? _) = true |- _ => apply Z.leb_le in H
         | H : (_ <=? _) = false |- _ => apply Z.leb_gt in H
         end.

Ltac to_props :=
  repeat match goal with
         | H : bool_decide _ = true |- _ => apply bool_decide_eq_true in H
         | H : bool_decide _ = false |- _ => apply bool_decide_eq_false in H
         | H : (_ <? _) = true |- _ => apply Z.ltb_lt in H
         | H : (_ <? _) = false |- _ => apply Z.ltb_ge in H
         end.

(** X13. The three parts of an evaluation agree with each other: the
    patient is eligible exactly when the tier is not continue-monitoring;
    the below-range sentence is given exactly for eGFR under 20, the
    does-not-meet sentence exactly for the other ineligible patients; and
    an eligible patient's rationale is a list of reasons that opens with
    the CKD stage. *)
Theorem eligibility_parts_agree (patient : Patient) :
  let '(eligible, tier, rationale) := evaluate_treatment_eligibility patient in
  (eligible = true <-> tier <> CONTINUE_MONITORING) /\
  (rationale = BelowApprovedRange <-> (input_egfr patient < 20)%Q) /\
  (rationale = DoesNotMeetCriteria <->
     (20 <= input_egfr patient)%Q /\ eligible = false) /\
  (eligible = true <->
     exists rest,
       rationale = Joined (DiabeticCKDStage (input_stage patient) :: rest) \/
       rationale = Joined (NonDiabeticCKDStage (input_stage patient) :: rest)).
Proof.
  unfold evaluate_treatment_eligibility, input_egfr, input_stage.
  destruct (Qltb (get (eGFR patient) 0%Q) 20) eqn:Hegfr.
  { apply Qltb_true in Hegfr. repeat split; try done.
    - intros [Hge _]. exfalso. lra.
    - by intros [? [?|?]]. }
  apply Qltb_false in Hegfr.
  assert (Hnot : ~ (get (eGFR patient) 0 < 20)%Q) by by apply Qle_not_lt.
  destruct (has_label "Diabetes" _), (2 <=? _), (3 <=? _), (4 <=? _),
    (has_label "Hypertension" _), (has_label "Heart Failure" _);
    simpl; case_conditions;
    (repeat split; try done; try (by intros [? [?|?]]); try (by intros []);
     try (intros _; eexists; (by left) || (by right))).
Qed.

(** X14. From 20 upwards the eGFR plays no part: two snapshots that differ
    in eGFR only, both at 20 or more, get the same eligibility, tier and
    rationale.  There is no upper limit; the branch for eGFR above 75 does
    nothing. *)
Theorem eligibility_ignores_egfr_from_twenty (patient1 patient2 : Patient) :
  ckdStage patient1 = ckdStage patient2 ->
  uACR patient1 = uACR patient2 ->
  comorbidities patient1 = comorbidities patient2 ->
  (20 <= input_egfr patient1)%Q -> (20 <= input_egfr patient2)%Q ->
  evaluate_treatment_eligibility patient1 =
    evaluate_treatment_eligibility patient2.
Proof.
  unfold input_egfr. intros Hstage Huacr Hcom H1 H2.
  apply Qltb_false in H1, H2.
  unfold evaluate_treatment_eligibility.
  by rewrite H1, H2, Hstage, Huacr, Hcom.
Qed.

Lemma eligibility_ignores_egfr_from_twenty_witness :
  evaluate_treatment_eligibility patient_3 =
  evaluate_treatment_eligibility
    {| patientId := "TEST003"; name := "Robert Martinez";
       eGFR := Some 90%Q; ckdStage := Some 3; uACR := Some 320%Q;
       comorbidities := Some ["Diabetes"; "Hypertension"]%string;
       uacr_history := None; jardiance := None |}.
Proof.
  apply (eligibility_ignores_egfr_from_twenty patient_3); try reflexivity.
  - vm_compute. discriminate.
  - vm_compute. discriminate.
Defined.

(** X15. A higher uACR or a later CKD stage never weakens the outcome:
    with eGFR and comorbidities unchanged, an eligible patient stays
    eligible and the tier does not go down. *)
Theorem eligibility_monotone (patient1 patient2 : Patient) :
  eGFR patient1 = eGFR patient2 ->
  comorbidities patient1 = comorbidities patient2 ->
  input_stage patient1 <= input_stage patient2 ->
  (input_uacr patient1 <= input_uacr patient2)%Q ->
  let '(eligible1, tier1) := verdict (evaluate_treatment_eligibility patient1) in
  let '(eligible2, tier2) := verdict (evaluate_treatment_eligibility patient2) in
  (eligible1 = true -> eligible2 = true) /\ tier_rank tier1 <= tier_rank tier2.
Proof.
  unfold input_stage, input_uacr. intros Hegfr Hcom Hstage Huacr.
  unfold verdict, evaluate_treatment_eligibility.
  rewrite Hegfr, Hcom.
  set (s1 := get (ckdStage patient1) 0) in *.
  set (s2 := get (ckdStage patient2) 0) in *.
  set (u1 := get (uACR patient1) 0%Q) in *.
  set (u2 := get (uACR patient2) 0%Q) in *.
  destruct (Qltb _ 20); [simpl; split; [done | lia]|].
  destruct (has_label "Hypertension" _), (has_label "Heart Failure" _),
    (has_label "Diabetes" _); simpl;
    destruct (Z.leb_spec 2 s1), (Z.leb_spec 3 s1), (Z.leb_spec 4 s1);
    try lia;
    destruct (Z.leb_spec 2 s2), (Z.leb_spec 3 s2), (Z.leb_spec 4 s2);
    try lia; simpl;
    destruct (Qgeb u1 300) eqn:?, (Qgeb u1 200) eqn:?, (Qgeb u1 30) eqn:?;
    to_Q_facts; try (exfalso; lra);
    destruct (Qgeb u2 300) eqn:?, (Qgeb u2 200) eqn:?, (Qgeb u2 30) eqn:?;
    to_Q_facts; try (exfalso; lra);
    simpl; (split; [done | lia]).
Qed.

Lemma eligibility_monotone_witness :
  let '(eligible1, tier1) := verdict (evaluate_treatment_eligibility patient_4) in
  let '(eligible2, tier2) :=
    verdict (evaluate_treatment_eligibility
               {| patientId := "TEST004"; name := "Linda Park";
                  eGFR := Some 78%Q; ckdStage := Some 3; uACR := Some 320%Q;
                  comorbidities := Some ["Hypertension"]%string;
                  uacr_history := None; jardiance := None |}) in
  (eligible1 = true -> eligible2 = true) /\ tier_rank tier1 <= tier_rank tier2.
Proof.
  apply (eligibility_monotone patient_4
           {| patientId := "TEST004"; name := "Linda Park";
              eGFR := Some 78%Q; ckdStage := Some 3; uACR := Some 320%Q;
              comorbidities := Some ["Hypertension"]%string;
              uacr_history := None; jardiance := None |}); try reflexivity.
  - vm_compute. discriminate.
  - vm_compute. discriminate.
Defined.

Lemma primary_reasons_are_not_supporting (has_diabetes : bool) (ckd_stage : Z) (uacr : Q) :
  let '(eligible, _, reasons) :=
    if has_diabetes && (2 <=? ckd_stage) then
      let reasons := [DiabeticCKDStage ckd_stage] in
      if Qgeb uacr 300 then
        (true, URGENT_TREATMENT, reasons ++ [Macroalbuminuria uacr])
      else if Qgeb uacr 200 then
        (true, STRONGLY_RECOMMEND, reasons ++ [SignificantAlbuminuria uacr])
      else if Qgeb uacr 30 then
        (true, STRONGLY_RECOMMEND, reasons ++ [Microalbuminuria uacr])
      else (true, CONSIDER_TREATMENT, reasons)
    else if negb has_diabetes && (3 <=? ckd_stage) && Qgeb uacr 200 then
      let reasons := [NonDiabeticCKDStage ckd_stage] in
      if Qgeb uacr 300 then
        (true, URGENT_TREATMENT, reasons ++ [Macroalbuminuria uacr])
      else
        (true, STRONGLY_RECOMMEND, reasons ++ [SignificantAlbuminuria uacr])
    else (false, CONTINUE_MONITORING, [])
  in
  (eligible = false -> reasons = []) /\
  (eligible = true -> reasons <> []) /\
  (HypertensionPresent ∉ reasons) /\ (HeartFailurePresent ∉ reasons) /\
  (AdvancedCKDStage ckd_stage ∉ reasons).
Proof.
  destruct has_diabetes, (2 <=? ckd_stage), (3 <=? ckd_stage),
    (Qgeb uacr 300), (Qgeb uacr 200), (Qgeb uacr 30); simpl;
    (split; [done|]); (split; [done|]);
    rewrite ?not_elem_of_cons; repeat split; try done; apply not_elem_of_nil.
Qed.

(** X16. The rationale names a supporting factor exactly when the patient
    is eligible and has it: hypertension, heart failure, and an advanced
    stage from stage 4.  For an ineligible patient the comorbidities leave
    no trace. *)
Theorem rationale_names_supporting_factors (patient : Patient) :
  let '(eligible, tier, rationale) := evaluate_treatment_eligibility patient in
  let reasons := rationale_reasons rationale in
  (HypertensionPresent ∈ reasons <->
     eligible = true /\ "Hypertension"%string ∈ input_comorbidities patient) /\
  (HeartFailurePresent ∈ reasons <->
     eligible = true /\ "Heart Failure"%string ∈ input_comorbidities patient) /\
  (AdvancedCKDStage (input_stage patient) ∈ reasons <->
     eligible = true /\ 4 <= input_stage patient) /\
  (eligible = false -> reasons = []).
Proof.
  unfold evaluate_treatment_eligibility, input_comorbidities, input_stage.
  destruct (Qltb _ 20).
  { simpl. rewrite !elem_of_nil. repeat split; try tauto; by intros []. }
  set (labels := get (comorbidities patient) []).
  set (stage := get (ckdStage patient) 0).
  set (uacr := get (uACR patient) 0%Q).
  pose proof (primary_reasons_are_not_supporting
                (has_label "Diabetes" labels) stage uacr) as Hprimary.
  destruct (if has_label "Diabetes" labels && (2 <=? stage) then _ else _)
    as [[eligible tier] reasons].
  destruct Hprimary as (Hnone & Hsome & Hht & Hhf & Hadv).
  destruct eligible.
  2:{ rewrite (Hnone eq_refl). simpl. rewrite !elem_of_nil.
      repeat split; try tauto; by intros []. }
  specialize (Hsome eq_refl). unfold has_label.
  destruct (bool_decide ("Hypertension"%string ∈ labels)) eqn:Eht,
    (bool_decide ("Heart Failure"%string ∈ labels)) eqn:Ehf,
    (Z.leb_spec 4 stage); to_props;
    match goal with
    | |- context [match ?l with [] => _ | _ :: _ => Joined ?l' end] =>
        replace (match l with [] => DoesNotMeetCriteria | _ :: _ => Joined l' end)
          with (Joined l) by (destruct reasons; done)
    end;
    simpl; rewrite ?elem_of_app, ?elem_of_cons, ?elem_of_nil;
    (repeat split; try done; try lia;
     try (intros; intuition (discriminate || congruence || lia))).
Qed.

(* ------------------------------------------------------------------ *)
(** ** The recommended actions *)


(** X18. For a patient on treatment the actions follow the adherence
    record: the call to contact the patient today appears exactly for a
    non-adherent patient with a refill gap over seven days; the recorded
    barriers are listed exactly when a non-adherent patient has some, and
    counselling is scheduled when there is none; the referral to a
    nephrologist appears exactly for an adherent patient whose current
    uACR is 300 or more. *)
Theorem actions_on_treatment (patient : Patient) (analysis : uACRAnalysis)
  (adherence : option AdherenceAnalysis) (a : AdherenceAnalysis)
  (actions : list Action) :
  treated adherence = Some a ->
  _generate_recommended_actions patient analysis adherence = Ok actions ->
  (forall gap, ContactPatientToday gap ∈ actions <->
     is_adherent a = false /\ refill_gap_days a = Some gap /\ 7 < gap) /\
  (forall listed, IdentifiedBarriers listed ∈ actions <->
     is_adherent a = false /\ listed = barriers a /\ listed <> []) /\
  (ScheduleAdherenceCounseling ∈ actions <->
     is_adherent a = false /\ barriers a = []) /\
  (ReferToNephrologist ∈ actions <->
     is_adherent a = true /\ (300 <= current_uacr analysis)%num) /\
  (AdherenceIsGood ∈ actions <-> is_adherent a = true) /\
  (forall m, AddressAdherence m ∈ actions <->
     is_adherent a = false /\ mpr a = Some m).
Proof.
  intros Ht. unfold _generate_recommended_actions. rewrite Ht.
  destruct (is_adherent a); simpl.
  - intros [= <-].
    destruct (py_ge _ _) eqn:Hu; unfold py_ge in Hu; simpl;
      repeat split; intros; set_unfold;
      intuition (simplify_eq; try done; try congruence).
  - destruct (mpr a) as [m|]; simpl; [|done].
    destruct (refill_gap_days a) as [gap|]; simpl; [|done].
    intros [= <-].
    destruct (7 <? gap) eqn:Hgap, (barriers a) as [|b bs] eqn:Hb; to_props; simpl;
      repeat split; intros; set_unfold;
      intuition (simplify_eq; try done; try lia).
Qed.

Example analyze_patient_1 :
  analyze_uacr_change iso_calendar_date patient_1 = Ok (Some analysis_1).
Proof. reflexivity. Qed.

Lemma actions_on_treatment_witness :
  exists actions,
    _generate_recommended_actions patient_1 analysis_1
      (Some (analyze_adherence patient_1)) = Ok actions /\
    ContactPatientToday 45 ∈ actions /\
    IdentifiedBarriers ["Forgetfulness"; "Cost concerns"]%string ∈ actions /\
    ReferToNephrologist ∉ actions.
Proof.
  eexists. split; [vm_compute; reflexivity|].
  destruct (actions_on_treatment patient_1 analysis_1
              (Some (analyze_adherence patient_1)) (analyze_adherence patient_1)
              _ eq_refl eq_refl) as (Hcontact & Hbarriers & _ & Hrefer & _).
  split; [|split].
  - apply Hcontact. by repeat split.
  - apply Hbarriers. by repeat split.
  - intros Hin. apply Hrefer in Hin as [Hadh _]. discriminate.
Defined.

Lemma eligible_iff_treatment_tier (patient : Patient) :
  let '(eligible, tier, _) := evaluate_treatment_eligibility patient in
  eligible = true <-> tier <> CONTINUE_MONITORING.
Proof.
  unfold evaluate_treatment_eligibility.
  destruct (Qltb _ 20); [done|].
  destruct (has_label "Diabetes" _), (2 <=? _), (3 <=? _), (4 <=? _),
    (has_label "Hypertension" _), (has_label "Heart Failure" _);
    simpl; case_conditions; done.
Qed.



(* ------------------------------------------------------------------ *)
(** ** The alert as a whole *)


Section ComposerEdges.

Variables now_strftime now_isoformat : string.


(** X21. The sections of an alert tell one story.  The message template
    goes with the opening action; the actions and the rationale agree on
    whether adherence is poor or good; for an untreated patient the
    rationale says that the criteria are not met exactly when the actions
    say to continue monitoring and the recommendation is
    continue-monitoring, and otherwise quotes the same eligibility
    rationale as the actions do. *)
Theorem alert_sections_agree (patient : Patient) (analysis : uACRAnalysis)
  (adherence : option AdherenceAnalysis) (alert : ClinicalAlert) :
  generate_clinical_alert now_strftime now_isoformat patient analysis adherence =
    Ok alert ->
  let actions := recommended_actions alert in
  let parts := clinical_rationale alert in
  match message alert with
  | WorseningWithPoorAdherence _ _ _ med _ m =>
      (AddressAdherence m ∈ actions) /\
      (PoorAdherence med m ∈ parts) /\
      alert_type alert = "UACR_WORSENING_ON_TREATMENT"%string
  | WorseningDespiteGoodAdherence _ _ _ med m =>
      (AdherenceIsGood ∈ actions) /\
      (exists p, DespiteGoodAdherence med m p ∈ parts) /\
      alert_type alert = "UACR_WORSENING_ON_TREATMENT"%string
  | WorseningInUntreatedPatient _ _ _ =>
      alert_type alert = "UACR_WORSENING_UNTREATED"%string /\
      (DoesNotMeetTherapyCriteria ∈ parts <-> ContinueMonitoringAction ∈ actions) /\
      (ContinueMonitoringAction ∈ actions <->
         treatment_recommendation alert = Some CONTINUE_MONITORING) /\
      (forall quoted,
         MeetsCriteria quoted ∈ parts <->
         ClinicalIndication quoted ∈ actions \/ RationaleNote quoted ∈ actions)
  end.
Proof.
  unfold generate_clinical_alert, _generate_recommended_actions,
    _generate_clinical_rationale.
  destruct (treated adherence) as [a|].
  - destruct (is_adherent a), (mpr a) as [m|], (pdc a) as [p|],
      (refill_gap_days a) as [gap|]; simpl; try discriminate;
      intros [= <-]; simpl.
    + split; [|split; [|done]].
      * apply elem_of_app. left. destruct (py_ge _ _); left.
      * exists p. apply elem_of_app. right. left.
    + split; [|split; [|done]].
      * apply elem_of_app. left. destruct (py_ge _ _); left.
      * exists p. apply elem_of_app. right. left.
    + split; [|split; [|done]].
      * destruct (7 <? gap), (barriers a); left.
      * destruct (30 <? gap); rewrite ?elem_of_app; set_unfold; tauto.
    + split; [|split; [|done]].
      * destruct (7 <? gap), (barriers a); left.
      * destruct (30 <? gap); rewrite ?elem_of_app; set_unfold; tauto.
  - pose proof (eligible_iff_treatment_tier patient) as Htier.
    destruct (evaluate_treatment_eligibility patient) as [[eligible tier] rationale].
    simpl. intros [= <-]. simpl. split; [done|].
    destruct (bool_decide (current_category analysis ≠ previous_category analysis));
      destruct eligible, tier; simpl;
      try (exfalso; by apply Htier);
      try (exfalso; destruct Htier as [_ Htier]; by specialize (Htier ltac:(done)));
      repeat split; intros; set_unfold;
      intuition (simplify_eq; try done).
Qed.


End ComposerEdges.

Lemma alert_sections_agree_witness :
  exists alert,
    generate_clinical_alert sample_strftime sample_isoformat patient_1 analysis_1
      (Some (analyze_adherence patient_1)) = Ok alert /\
    AddressAdherence 65 ∈ recommended_actions alert /\
    PoorAdherence (Some "Jardiance (empagliflozin) 10mg"%string) 65
      ∈ clinical_rationale alert.
Proof.
  eexists. split; [reflexivity|].
  pose proof (alert_sections_agree sample_strftime sample_isoformat
                patient_1 analysis_1 (Some (analyze_adherence patient_1))
                _ eq_refl) as (Hactions & Hparts & _).
  split; [exact Hactions | exact Hparts].
Defined.

(* ------------------------------------------------------------------ *)
(** ** The batch as a whole *)

Section BatchEdges.

Variable fromisoformat : string -> option Z.
Variables now_strftime now_isoformat : string.


Lemma generate_clinical_alert_patient_id (patient : Patient) (a : uACRAnalysis)
  (adherence : option AdherenceAnalysis) (alert : ClinicalAlert) :
  generate_clinical_alert now_strftime now_isoformat patient a adherence = Ok alert ->
  alert_patient_id alert = patientId patient.
Proof.
  unfold generate_clinical_alert.
  generalize (_generate_recommended_actions patient a adherence)
             (_generate_clinical_rationale patient a adherence).
  intros actions parts.
  destruct (treated adherence) as [x|];
    [destruct (is_adherent x), (mpr x)
    |destruct (evaluate_treatment_eligibility patient) as [[? ?] ?]];
    destruct actions, parts; simpl; try discriminate; by intros [= <-].
Qed.

Lemma alert_alone_Some (patient : Patient) (alert : ClinicalAlert) :
  alert_alone fromisoformat now_strftime now_isoformat patient = Some alert <->
  exists a,
    analyze_uacr_change fromisoformat patient = Ok (Some a) /\
    is_worsening a = true /\
    generate_clinical_alert now_strftime now_isoformat patient a
      (Some (analyze_adherence patient)) = Ok alert.
Proof.
  unfold alert_alone. rewrite process_patient_eq.
  destruct (analyze_uacr_change fromisoformat patient) as [[a|]|e]; simpl.
  - destruct (is_worsening a) eqn:Hw; simpl.
    + destruct (generate_clinical_alert _ _ _ _ _) as [alert'|e] eqn:Hg; simpl.
      * split; [intros [= <-]; by exists a |].
        intros (a' & [= <-] & _ & Hg'). congruence.
      * split; [done|]. intros (a' & [= <-] & _ & Hg'). congruence.
    + split; [done|]. intros (a' & [= <-] & Hw' & _). congruence.
  - split; [done|]. by intros (a' & ? & _).
  - split; [done|]. by intros (a' & ? & _).
Qed.

Lemma process_patient_alone (patient : Patient) (alerts : list ClinicalAlert) :
  analysis_returns fromisoformat patient ->
  process_patient fromisoformat now_strftime now_isoformat patient alerts =
    (Ok (alert_alone fromisoformat now_strftime now_isoformat patient), alerts ++ option_list (alert_alone fromisoformat now_strftime now_isoformat patient)) /\
  (forall alert, alert_alone fromisoformat now_strftime now_isoformat patient = Some alert -> _print_alert alert = Ok tt).
Proof.
  intros Hret. unfold alert_alone. rewrite !process_patient_eq.
  destruct (analyze_uacr_change fromisoformat patient) as [[a|]|e] eqn:Ha; simpl.
  - destruct (is_worsening a); simpl.
    + destruct (generate_clinical_alert_after_adherence now_strftime now_isoformat
                  patient a) as (alert & -> & _ & _ & _ & Hprint).
      simpl. split; [done|]. by intros ? [= <-].
    + rewrite app_nil_r. by split.
  - rewrite app_nil_r. by split.
  - exfalso. apply Hret. by exists e.
Qed.

Lemma process_patients_alone (patients : list Patient) (alerts : list ClinicalAlert) :
  Forall (analysis_returns fromisoformat) patients ->
  process_patients fromisoformat now_strftime now_isoformat patients alerts = (Ok tt, alerts ++ omap (alert_alone fromisoformat now_strftime now_isoformat) patients).
Proof.
  intros Hall. revert alerts.
  induction Hall as [|patient patients Hret _ IH]; intros alerts; simpl.
  { by rewrite app_nil_r. }
  destruct (process_patient_alone patient alerts Hret) as [Hrun Hprint].
  unfold mbind, System_bind. rewrite Hrun.
  destruct (alert_alone fromisoformat now_strftime now_isoformat patient) as [alert|] eqn:Halone; simpl.
  - unfold lift. rewrite (Hprint alert eq_refl). rewrite IH.
    by rewrite <- app_assoc.
  - rewrite IH. by rewrite app_nil_r.
Qed.

Lemma process_patients_raises (patients : list Patient) (alerts : list ClinicalAlert) :
  ~ Forall (analysis_returns fromisoformat) patients ->
  raises (process_patients fromisoformat now_strftime now_isoformat patients alerts).1.
Proof.
  revert alerts. induction patients as [|patient patients IH]; intros alerts Hnot.
  { exfalso. apply Hnot. constructor. }
  simpl. unfold mbind, System_bind.
  destruct (analyze_uacr_change fromisoformat patient) as [r|e] eqn:He.
  2:{ rewrite process_patient_eq, He. by exists e. }
  assert (Hret : analysis_returns fromisoformat patient).
  { intros [e' He']. congruence. }
  - destruct (process_patient_alone patient alerts Hret) as [Hrun Hprint].
    rewrite Hrun.
    assert (Hrest : ~ Forall (analysis_returns fromisoformat) patients).
    { intros Hall. apply Hnot. by constructor. }
    destruct (alert_alone fromisoformat now_strftime now_isoformat patient) as [alert|] eqn:Halone; simpl.
    + unfold lift. rewrite (Hprint alert eq_refl). by apply IH.
    + by apply IH.
Qed.

Lemma process_database_returns (patients : list Patient)
  (alerts0 alerts collection : list ClinicalAlert) :
  process_database fromisoformat now_strftime now_isoformat patients alerts0 =
    (Ok alerts, collection) ->
  Forall (analysis_returns fromisoformat) patients /\
  alerts = omap (alert_alone fromisoformat now_strftime now_isoformat) patients /\
  collection = alerts.
Proof.
  intros Hrun.
  destruct (decide (Forall (analysis_returns fromisoformat) patients))
    as [Hall|Hnot].
  - split; [done|]. revert Hrun. unfold process_database, mbind, System_bind.
    simpl. rewrite (process_patients_alone patients [] Hall). simpl.
    unfold get_alerts. by intros [= <- <-].
  - exfalso. destruct (process_patients_raises patients [] Hnot) as [e He].
    revert Hrun. unfold process_database, mbind, System_bind. simpl.
    destruct (process_patients _ _ _ patients []) as [[[]|e'] s]; simpl in *;
      discriminate.
Qed.

Lemma alert_alone_patient_id (patient : Patient) (alert : ClinicalAlert) :
  alert_alone fromisoformat now_strftime now_isoformat patient = Some alert ->
  alert_patient_id alert = patientId patient.
Proof.
  intros (a & _ & _ & Hg)%alert_alone_Some.
  by eapply generate_clinical_alert_patient_id.
Qed.


(** X24. The alerts of a run follow the order of the patients, with at
    most one alert for each: the patient identifiers of the alerts form a
    sublist of the identifiers of the patients. *)
Theorem batch_alerts_follow_patient_order (patients : list Patient)
  (alerts0 alerts collection : list ClinicalAlert) :
  process_database fromisoformat now_strftime now_isoformat patients alerts0 =
    (Ok alerts, collection) ->
  (alert_patient_id <$> alerts) `sublist_of` (patientId <$> patients) /\
  (length alerts <= length patients)%nat.
Proof.
  intros (_ & -> & _)%process_database_returns.
  assert (Hsub : (alert_patient_id <$>
                    omap (alert_alone fromisoformat now_strftime now_isoformat)
                         patients)
                 `sublist_of` (patientId <$> patients)).
  { induction patients as [|patient patients IH]; simpl; [constructor|].
    destruct (alert_alone _ _ _ patient) as [alert|] eqn:Halone; simpl.
    - rewrite (alert_alone_patient_id _ _ Halone). by constructor.
    - by constructor. }
  split; [exact Hsub|].
  apply sublist_length in Hsub. by rewrite !length_fmap in Hsub.
Qed.

(** X25. Patients are processed independently of each other: when two
    batches run through, the run over the one followed by the other
    returns the alerts of the first followed by the alerts of the
    second. *)
Theorem batch_of_concatenation (before after : list Patient)
  (alerts0 alerts1 alerts2 collection1 collection2 : list ClinicalAlert) :
  process_database fromisoformat now_strftime now_isoformat before alerts0 =
    (Ok alerts1, collection1) ->
  process_database fromisoformat now_strftime now_isoformat after alerts0 =
    (Ok alerts2, collection2) ->
  process_database fromisoformat now_strftime now_isoformat
    (before ++ after) alerts0 = (Ok (alerts1 ++ alerts2), alerts1 ++ alerts2).
Proof.
  intros (Hall1 & -> & _)%process_database_returns
         (Hall2 & -> & _)%process_database_returns.
  unfold process_database, mbind, System_bind. simpl.
  rewrite (process_patients_alone (before ++ after) []).
  - by rewrite omap_app.
  - by apply Forall_app.
Qed.

(** X26. The alerts of a run are the worsening cases, no more and no
    less: every alert belongs to a patient of the batch whose analysis
    shows worsening, carries that analysis and the patient's adherence
    assessment, and has severity critical, high or moderate (never low);
    and every patient whose analysis shows worsening has an alert. *)
Theorem batch_alerts_are_the_worsening_cases (patients : list Patient)
  (alerts0 alerts collection : list ClinicalAlert) :
  process_database fromisoformat now_strftime now_isoformat patients alerts0 =
    (Ok alerts, collection) ->
  (forall alert, alert ∈ alerts ->
     exists patient, patient ∈ patients /\
       alert_patient_id alert = patientId patient /\
       analyze_uacr_change fromisoformat patient = Ok (Some (uacr_analysis alert)) /\
       is_worsening (uacr_analysis alert) = true /\
       adherence_analysis alert = Some (analyze_adherence patient) /\
       severity alert ∈ worsening_severities) /\
  (forall patient a, patient ∈ patients ->
     analyze_uacr_change fromisoformat patient = Ok (Some a) ->
     is_worsening a = true ->
     exists alert, alert ∈ alerts /\
       alert_patient_id alert = patientId patient /\ uacr_analysis alert = a).
Proof.
  intros (Hall & -> & _)%process_database_returns. split.
  - intros alert (patient & Hin & Halone)%list_elem_of_omap.
    exists patient. split; [done|].
    split; [by apply alert_alone_patient_id|].
    apply alert_alone_Some in Halone as (a & Ha & Hw & Hg).
    destruct (generate_clinical_alert_after_adherence now_strftime now_isoformat
                patient a) as (alert' & Hg' & Hsev & Hua & Hadh & _).
    assert (alert' = alert) as -> by congruence.
    rewrite Hua. repeat split; try done.
    rewrite Hsev.
    apply (analyze_uacr_change_worsening fromisoformat patient a Ha) in Hw.
    unfold worsening_levels in Hw. set_unfold.
    destruct Hw as [->|[->|[->|[->|[]]]]]; vm_compute; tauto.
  - intros patient a Hin Ha Hw.
    destruct (generate_clinical_alert_after_adherence now_strftime now_isoformat
                patient a) as (alert & Hg & _ & Hua & _).
    assert (Halone : alert_alone fromisoformat now_strftime now_isoformat patient =
                     Some alert).
    { apply alert_alone_Some. by exists a. }
    exists alert. split; [|split; [by apply alert_alone_patient_id | done]].
    apply list_elem_of_omap. by exists patient.
Qed.

End BatchEdges.

Lemma batch_alerts_follow_patient_order_witness :
  exists alerts,
    process_database iso_calendar_date sample_strftime sample_isoformat
      [patient_1; patient_3] [] = (Ok alerts, alerts) /\
    (alert_patient_id <$> alerts) `sublist_of` ["TEST001"; "TEST003"]%string /\
    (length alerts <= 2)%nat.
Proof.
  eexists. split; [vm_compute; reflexivity|].
  eapply (batch_alerts_follow_patient_order iso_calendar_date sample_strftime
           sample_isoformat [patient_1; patient_3] [] _ _).
  vm_compute. reflexivity.
Defined.

Lemma batch_of_concatenation_witness :
  exists alerts1 alerts2,
    process_database iso_calendar_date sample_strftime sample_isoformat
      [patient_1] [] = (Ok alerts1, alerts1) /\
    process_database iso_calendar_date sample_strftime sample_isoformat
      [patient_4; patient_3] [] = (Ok alerts2, alerts2) /\
    process_database iso_calendar_date sample_strftime sample_isoformat
      ([patient_1] ++ [patient_4; patient_3]) [] =
      (Ok (alerts1 ++ alerts2), alerts1 ++ alerts2).
Proof.
  eexists _, _. split; [vm_compute; reflexivity|].
  split; [vm_compute; reflexivity|].
  eapply (batch_of_concatenation iso_calendar_date sample_strftime
           sample_isoformat [patient_1] [patient_4; patient_3] [] _ _ _ _).
  - vm_compute. reflexivity.
  - vm_compute. reflexivity.
Defined.

Lemma batch_alerts_are_the_worsening_cases_witness :
  exists alerts,
    process_database iso_calendar_date sample_strftime sample_isoformat
      [patient_1; patient_4] [] = (Ok alerts, alerts) /\
    (forall alert, alert ∈ alerts -> severity alert ∈ worsening_severities) /\
    exists alert, alert ∈ alerts /\
      alert_patient_id alert = "TEST001"%string /\ uacr_analysis alert = analysis_1.
Proof.
  eexists. split; [vm_compute; reflexivity|].
  destruct (batch_alerts_are_the_worsening_cases iso_calendar_date
              sample_strftime sample_isoformat [patient_1; patient_4] [] _ _
              eq_refl) as [Hsound Hcomplete].
  split.
  - intros alert Hin.
    destruct (Hsound alert Hin) as (_ & _ & _ & _ & _ & _ & Hsev). exact Hsev.
  - apply (Hcomplete patient_1 analysis_1).
    + left.
    + reflexivity.
    + reflexivity.
Defined.

(* ------------------------------------------------------------------ *)
(** ** The summary of a run *)

Lemma sum_ones_from (cond : ClinicalAlert -> bool) (alerts : list ClinicalAlert)
  (total : Z) :
  foldl (fun total a => if cond a then total + 1 else total) total alerts =
    total + Z.of_nat (length (filter (fun a => cond a = true) alerts)).
Proof.
  revert total. induction alerts as [|a alerts IH]; intros total; simpl; [lia|].
  rewrite IH. rewrite filter_cons.
  destruct (cond a) eqn:Hc.
  - rewrite decide_True by done. simpl. lia.
  - rewrite decide_False by done. lia.
Qed.

Lemma sum_ones_length (cond : ClinicalAlert -> bool) (alerts : list ClinicalAlert) :
  sum_ones cond alerts = Z.of_nat (length (filter (fun a => cond a = true) alerts)).
Proof. unfold sum_ones. rewrite sum_ones_from. lia. Qed.

Lemma count_severities_from (alerts : list ClinicalAlert) (counts : gmap string Z)
  (s : string) :
  get (foldl (fun severity_counts alert =>
                <[severity alert := get (severity_counts !! severity alert) 0 + 1]>
                  severity_counts) counts alerts !! s) 0 =
    get (counts !! s) 0 + alerts_of_severity s alerts.
Proof.
  unfold alerts_of_severity.
  revert counts. induction alerts as [|a alerts IH]; intros counts; simpl; [lia|].
  rewrite IH. rewrite filter_cons.
  destruct (decide (severity a = s)) as [<-|Hne].
  - rewrite lookup_insert_eq. simpl. lia.
  - by rewrite lookup_insert_ne.
Qed.

Lemma count_severities_lookup (alerts : list ClinicalAlert) (s : string) :
  get (count_severities alerts !! s) 0 = alerts_of_severity s alerts.
Proof.
  unfold count_severities. rewrite count_severities_from.
  by rewrite lookup_empty.
Qed.

Lemma percent_le_100 (n d : Z) :
  n <= d -> 0 < d -> (inject_Z n / inject_Z d * 100 <= 100)%Q.
Proof.
  intros Hn Hd. destruct d as [|p|p]; try lia.
  unfold Qle, Qdiv, Qmult, Qinv, inject_Z. simpl. lia.
Qed.

Lemma non_adherent_among_treated (alerts : list ClinicalAlert) :
  (length (filter (fun a => alert_non_adherent a = true) alerts) <=
   length (filter (fun a => alert_on_treatment a = true) alerts))%nat.
Proof.
  induction alerts as [|a alerts IH]; simpl; [done|].
  rewrite !filter_cons.
  destruct (decide (alert_non_adherent a = true)) as [Hn|Hn],
    (decide (alert_on_treatment a = true)) as [Ho|Ho]; simpl; try lia.
  exfalso. unfold alert_non_adherent, alert_on_treatment in Hn, Ho.
  destruct (treated (adherence_analysis a)); congruence.
Qed.

(** X27. The treatment summary is always well defined.  Alerts on
    treatment and alerts not on treatment add up to the number of alerts;
    the share of non-adherent patients is computed only when some alert
    is on treatment, so the division cannot fail, and it is a percentage
    between 0 and 100 of the alerts on treatment. *)
Theorem treatment_summary_is_well_defined (alerts : list ClinicalAlert) :
  exists summary,
    main_summary_statistics alerts = Ok summary /\
    let on_treatment := summary_on_treatment summary in
    let not_on_treatment := summary_not_on_treatment summary in
    0 <= on_treatment /\ 0 <= not_on_treatment /\
    on_treatment + not_on_treatment = Z.of_nat (length alerts) /\
    on_treatment =
      Z.of_nat (length (filter (fun a => is_Some (treated (adherence_analysis a)))
                               alerts)) /\
    (adherence_issues summary = None <-> on_treatment = 0) /\
    (forall non_adherent total share,
       adherence_issues summary = Some (non_adherent, total, share) ->
       total = on_treatment /\ 0 <= non_adherent <= total /\
       (0 <= share)%Q /\ (share <= 100)%Q /\
       (share == inject_Z non_adherent / inject_Z total * 100)%Q).
Proof.
  unfold main_summary_statistics.
  rewrite !sum_ones_length.
  pose proof (non_adherent_among_treated alerts) as Hle.
  pose proof (length_filter (fun a => alert_on_treatment a = true) alerts) as Hlen.
  assert (Hsame : filter (fun a => alert_on_treatment a = true) alerts =
                  filter (fun a => is_Some (treated (adherence_analysis a))) alerts).
  { apply list_filter_iff. intros a. unfold alert_on_treatment.
    destruct (treated (adherence_analysis a)); split; intros H; try done;
      first [by eexists | by destruct H]. }
  set (on := length (filter (fun a => alert_on_treatment a = true) alerts)) in *.
  set (non := length (filter (fun a => alert_non_adherent a = true) alerts)) in *.
  destruct (Z.ltb_spec 0 (Z.of_nat on)) as [Hpos|Hzero].
  - rewrite py_div_ok by (apply inject_Z_nonzero; lia). simpl.
    eexists. split; [reflexivity|]. simpl.
    repeat split; try lia; try done.
    + by rewrite <- Hsame.
    + injection H as <- <- <-. done.
    + injection H as <- <- <-. lia.
    + injection H as <- <- <-. lia.
    + injection H as <- <- <-. apply percent_nonneg; lia.
    + injection H as <- <- <-. apply percent_le_100; lia.
    + injection H as <- <- <-. reflexivity.
  - simpl. eexists. split; [reflexivity|]. simpl.
    repeat split; try lia; try done.
    by rewrite <- Hsame.
Qed.

Lemma severity_totals (alerts : list ClinicalAlert) :
  Forall (fun a => severity a ∈ worsening_severities) alerts ->
  alerts_of_severity "CRITICAL" alerts + alerts_of_severity "HIGH" alerts +
    alerts_of_severity "MODERATE" alerts = Z.of_nat (length alerts) /\
  alerts_of_severity "LOW" alerts = 0.
Proof.
  unfold alerts_of_severity.
  induction 1 as [|a alerts Ha _ [IH1 IH2]]; [done|].
  rewrite !filter_cons. unfold worsening_severities in Ha. set_unfold.
  destruct Ha as [->|[->|[->|[]]]]; simpl in *; lia.
Qed.

Section RunSummary.

Variable fromisoformat : string -> option Z.
Variables now_strftime now_isoformat : string.

Lemma alert_alone_severity (patient : Patient) (alert : ClinicalAlert) :
  alert_alone fromisoformat now_strftime now_isoformat patient = Some alert ->
  severity alert ∈ worsening_severities.
Proof.
  intros (a & Ha & Hw & Hg)%alert_alone_Some.
  destruct (generate_clinical_alert_after_adherence now_strftime now_isoformat
              patient a) as (alert' & Hg' & Hsev & _).
  assert (alert' = alert) as -> by congruence.
  rewrite Hsev.
  apply (analyze_uacr_change_worsening fromisoformat patient a Ha) in Hw.
  unfold worsening_levels in Hw. set_unfold.
  destruct Hw as [->|[->|[->|[->|[]]]]]; vm_compute; tauto.
Qed.

(** X28. The severity breakdown printed after a run accounts for every
    alert: it has a line for each of critical, high and moderate that
    occurs, with the number of alerts of that severity, never a line for
    low, and the counts add up to the number of alerts. *)
Theorem severity_breakdown_of_a_run (patients : list Patient)
  (alerts0 alerts collection : list ClinicalAlert) :
  process_database fromisoformat now_strftime now_isoformat patients alerts0 =
    (Ok alerts, collection) ->
  let lines := print_breakdown (count_severities alerts) in
  (forall s count,
     (s, count) ∈ lines <->
     s ∈ worsening_severities /\ count = alerts_of_severity s alerts /\ 0 < count) /\
  foldr Z.add 0 (snd <$> lines) = Z.of_nat (length alerts).
Proof.
  intros (_ & -> & _)%process_database_returns.
  set (alerts := omap _ patients).
  assert (Hsev : Forall (fun a => severity a ∈ worsening_severities) alerts).
  { apply Forall_forall. intros alert (patient & _ & Halone)%list_elem_of_omap.
    by eapply alert_alone_severity. }
  destruct (severity_totals alerts Hsev) as [Hsum Hlow].
  unfold print_breakdown. simpl.
  rewrite !count_severities_lookup, Hlow. simpl.
  unfold worsening_severities.
  destruct (Z.ltb_spec 0 (alerts_of_severity "CRITICAL" alerts)),
    (Z.ltb_spec 0 (alerts_of_severity "HIGH" alerts)),
    (Z.ltb_spec 0 (alerts_of_severity "MODERATE" alerts));
    (split; [|simpl; unfold alerts_of_severity in *; lia]);
    intros s count; set_unfold;
    intuition (simplify_eq; try done; try lia; auto).
Qed.

End RunSummary.

Lemma severity_breakdown_of_a_run_witness :
  exists alerts,
    process_database iso_calendar_date sample_strftime sample_isoformat
      [patient_1; patient_4; patient_3] [] = (Ok alerts, alerts) /\
    print_breakdown (count_severities alerts) =
      [("HIGH", 3)]%string /\
    foldr Z.add 0 (snd <$> print_breakdown (count_severities alerts)) = 3.
Proof.
  eexists. split; [vm_compute; reflexivity|].
  split; [vm_compute; reflexivity|].
  eapply (severity_breakdown_of_a_run iso_calendar_date sample_strftime
            sample_isoformat [patient_1; patient_4; patient_3] []).
  vm_compute. reflexivity.
Defined.

(* ------------------------------------------------------------------ *)
(** ** Consistency of an analysis *)

Lemma py_percent_change_nonzero (c p pc : number) :
  py_percent_change c p = Ok pc -> ~ zero_number p.
Proof.
  intros Hpc Hz. unfold py_percent_change in Hpc.
  destruct c as [m|x], p as [n|y]; simpl in *; subst; simpl in *.
  - discriminate.
  - destruct (float_of_int m); simpl in Hpc; [|discriminate].
    rewrite Hz in Hpc. discriminate.
  - discriminate.
  - rewrite Hz in Hpc. discriminate.
Qed.

Section Consistency.

Variable fromisoformat : string -> option Z.

(** X29. The fields of an analysis agree with each other.  The bands are
    those of the two values and the change is their percent change as
    Python computes it, from a previous value that is not zero;
    worsening is flagged only when the current value is above the previous
    one, and exactly when the level is not no-change; a category
    progression always goes to a higher band, and the percentage levels
    are given within one band only, each in its own range. *)
Theorem analysis_is_internally_consistent (patient : Patient) (a : uACRAnalysis) :
  analyze_uacr_change fromisoformat patient = Ok (Some a) ->
  patient_id a = patientId patient /\ patient_name a = name patient /\
  current_category a = categorize_uacr (current_uacr a) /\
  previous_category a = categorize_uacr (previous_uacr a) /\
  py_percent_change (current_uacr a) (previous_uacr a) = Ok (percent_change a) /\
  ~ zero_number (previous_uacr a) /\
  (exists d_current d_previous,
     fromisoformat (date_current a) = Some d_current /\
     fromisoformat (date_previous a) = Some d_previous /\
     days_between a = d_current - d_previous) /\
  (is_worsening a = true -> (previous_uacr a < current_uacr a)%num) /\
  (is_worsening a = true <-> worsening_level a <> NO_CHANGE) /\
  (worsening_level a = CATEGORY_PROGRESSION ->
     band_rank (previous_category a) < band_rank (current_category a)) /\
  (worsening_level a = SEVERE ->
     current_category a = previous_category a /\ (100 < percent_change a)%num) /\
  (worsening_level a = MODERATE ->
     current_category a = previous_category a /\
     (50 < percent_change a)%num /\ (percent_change a <= 100)%num) /\
  (worsening_level a = MILD ->
     current_category a = previous_category a /\
     (30 < percent_change a)%num /\ (percent_change a <= 50)%num).
Proof.
  intros Ha.
  destruct (uacr_history patient) as [history|] eqn:Hh;
    [|unfold analyze_uacr_change in Ha; rewrite Hh in Ha; discriminate].
  destruct (Nat.ltb_spec (length history) 2) as [Hlt|Hge].
  { unfold analyze_uacr_change in Ha. rewrite Hh in Ha.
    apply Nat.ltb_lt in Hlt. rewrite Hlt in Ha. discriminate. }
  destruct (sorted_by_date_reverse_two history Hge) as (c & p & rest & Hs).
  rewrite (analyze_uacr_change_sorted _ _ _ _ _ _ Hh Hs) in Ha.
  destruct (py_percent_change (value c) (value p)) as [pc|] eqn:Hpc;
    simpl in Ha; [|discriminate].
  unfold parse_date in Ha.
  destruct (fromisoformat (date c)) as [dc|] eqn:Hdc; simpl in Ha; [|discriminate].
  destruct (fromisoformat (date p)) as [dp|] eqn:Hdp; simpl in Ha; [|discriminate].
  injection Ha as <-. simpl.
  split; [done|]. split; [done|]. split; [done|]. split; [done|].
  split; [done|]. split; [by eapply py_percent_change_nonzero|].
  split; [by exists dc, dp|].
  pose proof (categorize_uacr_monotone (value p) (value c)) as Hmono.
  unfold determine_worsening.
  destruct (py_gt (value c) (value p)) eqn:Hgt; simpl.
  2:{ repeat split; try done; try discriminate. }
  unfold py_gt in Hgt. specialize (Hmono Hgt).
  destruct (bool_decide (categorize_uacr (value c) ≠ categorize_uacr (value p)))
    eqn:Hcat; to_props; simpl.
  { repeat split; try done; try discriminate.
    intros _.
    destruct (categorize_uacr (value c)), (categorize_uacr (value p));
      simpl in *; try lia; done. }
  apply dec_stable in Hcat.
  destruct (py_gt pc 100) eqn:H100; simpl;
    [|destruct (py_gt pc 50) eqn:H50; simpl;
      [|destruct (py_gt pc 30) eqn:H30; simpl]];
    repeat split; try done; try discriminate;
    try (unfold py_gt in *; done); num_order.
Qed.

End Consistency.

Lemma analysis_is_internally_consistent_witness :
  py_percent_change 380 250 = Ok (percent_change analysis_1) /\
  band_rank (previous_category analysis_1) < band_rank (current_category analysis_1).
Proof.
  destruct (analysis_is_internally_consistent iso_calendar_date patient_1
              analysis_1 eq_refl)
    as (_ & _ & _ & _ & Hpc & _ & _ & _ & _ & Hprog & _).
  split; [exact Hpc | by apply Hprog].
Defined.
